(** * OmniSpeed: the probe engine, the scheduler and the insight service

    A shallow embedding of [services/speedTest.ts], [services/geminiService.ts]
    and the scheduling part of [App.tsx], with the properties the
    specification states about them.

    Numbers.  A JavaScript [number] is an IEEE 754 double.  The embedding keeps
    the three kinds of special value ([NaN], [+Infinity], [-Infinity]) and
    their arithmetic, and represents a finite value by the rational it denotes:
    finite arithmetic is exact (binary rounding and overflow of huge values are
    abstracted away), and the two zeros are identified with [+0], the only zero
    this program can produce (all its quantities are differences [end - start]
    of a monotonic clock, sizes and products of those).

    Effects.  Every read of the outside world ([fetch], [performance.now],
    [Math.random], [Date.now], the text-generation service) is an explicit
    input: the probe engine takes an [Env] that scripts the outcome of each of
    its ten requests; the insight service is a computation that either returns
    or performs one request and continues with the response; the scheduler is
    a transition function on the component state. *)

From Stdlib Require Import String DecimalString ZArith QArith Qround Qabs Lqa Lia Bool List.
Import ListNotations.

Local Open Scope Q_scope.

(* ===================================================================== *)
(** ** JavaScript numbers *)
(* ===================================================================== *)

Module JsNumber.

Inductive number : Type :=
| NaN
| PInf
| NInf
| Fin (q : Q).

Definition of_Z (z : Z) : number := Fin (inject_Z z).
Definition of_nat (n : nat) : number := of_Z (Z.of_nat n).

(** Equality of numbers as values: rationals are compared by [Qeq]. *)
Definition num_eq (a b : number) : Prop :=
  match a, b with
  | NaN, NaN => True
  | PInf, PInf => True
  | NInf, NInf => True
  | Fin x, Fin y => x == y
  | _, _ => False
  end.

(** [Number.isFinite]. *)
Definition isFinite (a : number) : bool :=
  match a with Fin _ => true | _ => false end.

(** Finite and not below zero. *)
Definition nonneg (a : number) : Prop :=
  match a with Fin q => 0 <= q | _ => False end.

Definition neg (a : number) : number :=
  match a with
  | NaN => NaN
  | PInf => NInf
  | NInf => PInf
  | Fin q => Fin (- q)
  end.

(** [a + b]. *)
Definition add (a b : number) : number :=
  match a, b with
  | NaN, _ | _, NaN => NaN
  | PInf, NInf | NInf, PInf => NaN
  | PInf, _ | _, PInf => PInf
  | NInf, _ | _, NInf => NInf
  | Fin x, Fin y => Fin (x + y)
  end.

(** [a - b]. *)
Definition sub (a b : number) : number := add a (neg b).

(** An infinity of the sign of [q] times the sign of the infinity;
    [0 * Infinity] is [NaN]. *)
Definition scale_inf (positive : bool) (q : Q) : number :=
  match q ?= 0 with
  | Eq => NaN
  | Gt => if positive then PInf else NInf
  | Lt => if positive then NInf else PInf
  end.

(** [a * b]. *)
Definition mul (a b : number) : number :=
  match a, b with
  | NaN, _ | _, NaN => NaN
  | PInf, PInf | NInf, NInf => PInf
  | PInf, NInf | NInf, PInf => NInf
  | PInf, Fin q | Fin q, PInf => scale_inf true q
  | NInf, Fin q | Fin q, NInf => scale_inf false q
  | Fin x, Fin y => Fin (x * y)
  end.

(** [a / b].  Division by zero does not throw: a non-zero finite value over
    zero is an infinity, [0 / 0] is [NaN].  A finite quotient is the exact
    rational, which the code rounds to the nearest double. *)
Definition div (a b : number) : number :=
  match a, b with
  | NaN, _ | _, NaN => NaN
  | Fin x, Fin y =>
      if Qeq_bool y 0 then
        match x ?= 0 with
        | Eq => NaN
        | Gt => PInf
        | Lt => NInf
        end
      else Fin (x / y)
  | Fin _, _ => Fin 0
  | PInf, Fin y => if Qle_bool 0 y then PInf else NInf
  | NInf, Fin y => if Qle_bool 0 y then NInf else PInf
  | _, _ => NaN
  end.

(** [a > b]; any comparison with [NaN] is false. *)
Definition gtb (a b : number) : bool :=
  match a, b with
  | NaN, _ | _, NaN => false
  | PInf, PInf => false
  | PInf, _ => true
  | _, PInf => false
  | NInf, _ => false
  | Fin _, NInf => true
  | Fin x, Fin y => negb (Qle_bool x y)
  end.

(** One step of [Math.max]: [NaN] if either is [NaN], else the larger. *)
Definition max2 (a b : number) : number :=
  match a, b with
  | NaN, _ | _, NaN => NaN
  | _, _ => if gtb b a then b else a
  end.

Definition min2 (a b : number) : number :=
  match a, b with
  | NaN, _ | _, NaN => NaN
  | _, _ => if gtb a b then b else a
  end.

(** [Math.max(...xs)]; [-Infinity] for no argument. *)
Definition Math_max (xs : list number) : number := fold_left max2 xs NInf.

(** [Math.min(...xs)]; [+Infinity] for no argument. *)
Definition Math_min (xs : list number) : number := fold_left min2 xs PInf.

(** [xs.reduce((a, b) => a + b, 0)]. *)
Definition sum (xs : list number) : number := fold_left add xs (Fin 0).

Definition pow10 (d : nat) : Q := inject_Z (10 ^ Z.of_nat d).

(** The decimal with [d] fraction digits nearest to [q >= 0], the larger one
    on a tie (the integer [n] of [Number.prototype.toFixed], over [10^d]). *)
Definition nearest_decimal (d : nat) (q : Q) : Q :=
  inject_Z (Qfloor (q * pow10 d + (1 # 2))) / pow10 d.

(** [Number(x.toFixed(d))]: a non-finite [x] prints as its name and reads
    back as itself; a magnitude of [10^21] or more prints in full and reads
    back unchanged; otherwise the magnitude is rounded to [d] fraction digits
    and the sign is put back.  The decimal is kept as the exact rational,
    where the code reads it back as the nearest double. *)
Definition toFixed (d : nat) (x : number) : number :=
  match x with
  | Fin q =>
      if Qle_bool (pow10 21) (Qabs q) then Fin q
      else if Qle_bool 0 q then Fin (nearest_decimal d q)
      else Fin (- nearest_decimal d (- q))
  | _ => x
  end.

End JsNumber.

Export JsNumber.

(* ===================================================================== *)
(** ** types.ts *)
(* ===================================================================== *)

Record SpeedResult : Type := {
  timestamp : number;
  download : number;  (* Mbps *)
  upload : number;    (* Mbps *)
  latency : number;   (* ms *)
  jitter : number     (* ms *)
}.

Inductive Status : Type := excellent | good | fair | poor.

Record NetworkInsight : Type := {
  status : Status;
  summary : string;
  recommendations : list string
}.

(* ===================================================================== *)
(** ** services/speedTest.ts *)
(* ===================================================================== *)

Module SpeedTest.

(** *** The outside world of one probe cycle

    Each loop iteration reads the clock ([start]), awaits a [fetch], and
    either goes on in the [try] block or lands in the [catch] block. *)

(** The favicon round-trip: resolved, with the clock read after it, or
    rejected, with the value [Math.random()] returns in the handler. *)
Inductive ProbeOutcome : Type :=
| ProbeResolved (now : Q)
| ProbeRejected (random : Q).

Record LatencyAttempt : Type := {
  probe_start : Q;
  probe_outcome : ProbeOutcome
}.

(** The download: the body arrived ([blob.size] bytes, clock read after it),
    or [fetch] or [response.blob()] rejected. *)
Inductive DownloadOutcome : Type :=
| BodyReceived (size : N) (finish : Q)
| DownloadRejected.

Record DownloadAttempt : Type := {
  download_start : Q;
  download_outcome : DownloadOutcome
}.

(** The upload: a response came back (its [ok] flag, and the clock read after
    the flag was checked), or [fetch] rejected. *)
Inductive UploadOutcome : Type :=
| ResponseReceived (ok : bool) (finish : Q)
| UploadRejected.

Record UploadAttempt : Type := {
  upload_start : Q;
  upload_outcome : UploadOutcome
}.

Record Env : Type := {
  latency_fetch : nat -> LatencyAttempt;    (* iteration [i] of the first loop *)
  download_fetch : nat -> DownloadAttempt;  (* iteration [i] of the second loop *)
  upload_fetch : nat -> UploadAttempt;      (* iteration [i] of the last loop *)
  Date_now : Z                              (* [Date.now()] at the [return] *)
}.

(** [for (let i = lo; ...; i++) { acc.push(body(i)) }], [steps] iterations. *)
Fixpoint for_push {A : Type} (body : nat -> A) (i steps : nat) (acc : list A)
  : list A :=
  match steps with
  | O => acc
  | S k => for_push body (S i) k (acc ++ [body i])
  end.

(** *** 1. Latency and jitter *)

Definition latency_sample (a : LatencyAttempt) : number :=
  let start := Fin (probe_start a) in
  match probe_outcome a with
  | ProbeResolved now => sub (Fin now) start
  | ProbeRejected random => add (of_Z 20) (mul (Fin random) (of_Z 10))
  end.

Definition latencies (env : Env) : list number :=
  for_push (fun i => latency_sample (latency_fetch env i)) 0 5 [].

Definition avgLatency (env : Env) : number :=
  div (sum (latencies env)) (of_nat (length (latencies env))).

Definition jitter_of (env : Env) : number :=
  sub (Math_max (latencies env)) (Math_min (latencies env)).

(** *** 2. Download speed *)

Definition download_sample (a : DownloadAttempt) : number :=
  let start := Fin (download_start a) in
  match download_outcome a with
  | BodyReceived size finish =>
      let durationInSeconds := div (sub (Fin finish) start) (of_Z 1000) in
      let sizeInBits := mul (of_Z (Z.of_N size)) (of_Z 8) in
      let mbps := div (div (div sizeInBits (of_Z 1024)) (of_Z 1024))
                      durationInSeconds in
      mbps
  | DownloadRejected => of_Z 0
  end.

Definition downloadSpeeds (env : Env) : list number :=
  for_push (fun i => download_sample (download_fetch env i)) 0 3 [].

Definition positive (s : number) : bool := gtb s (of_Z 0).

Definition average_download (speeds : list number) : number :=
  div (sum speeds) (of_nat (Nat.max 1 (length (filter positive speeds)))).

Definition avgDownload (env : Env) : number :=
  average_download (downloadSpeeds env).

(** *** 3. Upload speed *)

Definition uploadSize : Z := 1024 * 1024.

Definition MAX_CRYPTO_CHUNK : Z := 65536.

(** The sizes of the chunks handed to [crypto.getRandomValues]:
    [for (i = 0; i < data.length; i += MAX_CRYPTO_CHUNK)], [fuel] bounds the
    number of iterations. *)
Fixpoint chunk_sizes (fuel : nat) (i len : Z) : list Z :=
  match fuel with
  | O => []
  | S k =>
      if (i <? len)%Z then
        Z.min MAX_CRYPTO_CHUNK (len - i)
          :: chunk_sizes k (i + MAX_CRYPTO_CHUNK)%Z len
      else []
  end.

Definition upload_sample (avgDownload : number) (a : UploadAttempt) : number :=
  let start := Fin (upload_start a) in
  match upload_outcome a with
  | ResponseReceived true finish =>
      let durationInSeconds := div (sub (Fin finish) start) (of_Z 1000) in
      let mbps := div (div (div (mul (of_Z uploadSize) (of_Z 8)) (of_Z 1024))
                           (of_Z 1024))
                      durationInSeconds in
      mbps
  | ResponseReceived false _ (* throw new Error("Upload failed") *)
  | UploadRejected => mul avgDownload (Fin (4 # 10))
  end.

Definition uploadSpeeds (env : Env) : list number :=
  for_push (fun i => upload_sample (avgDownload env) (upload_fetch env i)) 0 2 [].

Definition avgUpload (env : Env) : number :=
  div (sum (uploadSpeeds env)) (of_nat (length (uploadSpeeds env))).

(** *** The sample *)

Definition runSpeedTest (env : Env) : SpeedResult :=
  {| timestamp := of_Z (Date_now env);
     download := toFixed 2 (avgDownload env);
     upload := toFixed 2 (avgUpload env);
     latency := toFixed 1 (avgLatency env);
     jitter := toFixed 1 (jitter_of env) |}.

(** *** Environments a browser can produce

    [performance.now] is monotonic, [Math.random] is in [[0, 1)]. *)

Definition wf_latency (a : LatencyAttempt) : Prop :=
  match probe_outcome a with
  | ProbeResolved now => probe_start a <= now
  | ProbeRejected random => 0 <= random /\ random < 1
  end.

Definition wf_download (a : DownloadAttempt) : Prop :=
  match download_outcome a with
  | BodyReceived _ finish => download_start a <= finish
  | DownloadRejected => True
  end.

Definition wf_upload (a : UploadAttempt) : Prop :=
  match upload_outcome a with
  | ResponseReceived _ finish => upload_start a <= finish
  | UploadRejected => True
  end.

Record wf_env (env : Env) : Prop := {
  wf_latency_fetch : forall i, wf_latency (latency_fetch env i);
  wf_download_fetch : forall i, wf_download (download_fetch env i);
  wf_upload_fetch : forall i, wf_upload (upload_fetch env i)
}.

(** An attempt failed when control reached its [catch] block. *)
Definition download_failed (a : DownloadAttempt) : bool :=
  match download_outcome a with DownloadRejected => true | _ => false end.

Definition upload_failed (a : UploadAttempt) : bool :=
  match upload_outcome a with
  | ResponseReceived true _ => false
  | _ => true
  end.

(** A total outage: every request of the cycle is rejected. *)
Definition outage (r : nat -> Q) (now : Z) : Env :=
  {| latency_fetch := fun i => {| probe_start := 0; probe_outcome := ProbeRejected (r i) |};
     download_fetch := fun _ => {| download_start := 0; download_outcome := DownloadRejected |};
     upload_fetch := fun _ => {| upload_start := 0; upload_outcome := UploadRejected |};
     Date_now := now |}.

End SpeedTest.

(* ===================================================================== *)
(** ** services/geminiService.ts *)
(* ===================================================================== *)

Module GeminiService.

(** [xs.slice(-n)]: the last [n] elements, all of them when there are fewer. *)
Definition slice_last {A : Type} (n : nat) (xs : list A) : list A :=
  skipn (length xs - n) xs.

(** What the prompt is built from: [history.slice(-20)] and the two speeds of
    [history[history.length - 1]]. *)
Record Prompt : Type := {
  prompt_history : list SpeedResult;
  prompt_current : option SpeedResult
}.

(** What awaiting [ai.models.generateContent] gives: the promise rejects, or
    it resolves to a response whose [text] is a string or [undefined]. *)
Inductive Response : Type :=
| Rejected
| Resolved (text : option string).

(** An asynchronous computation that calls the collaborator at most once:
    it returns at once, or it sends a request and continues with the
    response. *)
Inductive Async (A : Type) : Type :=
| Return (a : A)
| Await (request : Prompt) (k : Response -> A).

Arguments Return {A} a.
Arguments Await {A} request k.

(** Whether the collaborator was called. *)
Definition invoked {A : Type} (c : Async A) : bool :=
  match c with Return _ => false | Await _ _ => true end.

(** The value the caller's [await] receives. *)
Definition settle {A : Type} (c : Async A) (r : Response) : A :=
  match c with Return a => a | Await _ k => k r end.

Local Open Scope string_scope.

(** The object returned for an empty history. *)
Definition insufficient_data : NetworkInsight :=
  {| status := fair;
     summary := "Insufficient data to analyze.";
     recommendations := ["Keep monitoring to gather trends."] |}.

(** The object returned from the [catch] block. *)
Definition unable_to_connect : NetworkInsight :=
  {| status := good;
     summary := "Unable to connect to AI analyzer at the moment.";
     recommendations := ["Verify your ISP plan if speeds seem low."] |}.

Section Service.

(** [JSON.parse], read at the declared return type: [None] when it throws
    a [SyntaxError]. *)
Variable JSON_parse : string -> option NetworkInsight.

(** [String.prototype.trim]. *)
Variable trim : string -> string.

(** The body of the [try] block after the [await], and the [catch]. *)
Definition read_response (response : Response) : NetworkInsight :=
  match response with
  | Rejected => unable_to_connect
  | Resolved text =>
      match text with
      | None | Some "" =>
          (* if (!text) throw new Error(...) *) unable_to_connect
      | Some t =>
          match JSON_parse (trim t) with
          | Some insight => insight
          | None => unable_to_connect
          end
      end
  end.

Definition getNetworkInsights (history : list SpeedResult)
  : Async NetworkInsight :=
  if Nat.eqb (length history) 0 then Return insufficient_data
  else
    let prompt :=
      {| prompt_history := slice_last 20 history;
         prompt_current := nth_error history (length history - 1) |} in
    Await prompt read_response.

(** The collaborator failed: no response (a rejected call, a missing or
    empty text), or a text that does not parse. *)
Definition collaborator_failed (response : Response) : bool :=
  match response with
  | Rejected => true
  | Resolved None => true
  | Resolved (Some "") => true
  | Resolved (Some t) =>
      match JSON_parse (trim t) with Some _ => false | None => true end
  end.

End Service.

End GeminiService.

(* ===================================================================== *)
(** ** App.tsx: the scheduler and the history store *)
(* ===================================================================== *)

Module App.

Import GeminiService.

Definition TEST_INTERVAL_MS : Z := 10 * 60 * 1000.

(** An invocation of [performTest] suspended at one of its two [await]s.
    At the first it holds the [history] its closure captured; at the second,
    the continuation of [getNetworkInsights]. *)
Inductive Cycle : Type :=
| AwaitingProbe (captured : list SpeedResult)
| AwaitingInsights (k : Response -> NetworkInsight).

(** The [useState] cells of the component, the [localStorage] entry
    [omnispeed_history], the suspended invocations of [performTest], and the
    arguments of the calls of [setIsTesting] so far, oldest first. *)
Record State : Type := {
  history : list SpeedResult;
  isTesting : bool;
  insights : option NetworkInsight;
  nextRun : Z;
  timeLeft : Z;
  stored : list SpeedResult;
  running : list Cycle;
  flag_calls : list bool
}.

Section Scheduler.

Variable JSON_parse : string -> option NetworkInsight.
Variable trim : string -> string.

(** [setHistory], with the effect that follows every change of [history]:
    [localStorage.setItem(key, JSON.stringify(history.slice(-100)))]. *)
Definition setHistory (h : list SpeedResult) (st : State) : State :=
  {| history := h; isTesting := isTesting st; insights := insights st;
     nextRun := nextRun st; timeLeft := timeLeft st;
     stored := slice_last 100 h;
     running := running st; flag_calls := flag_calls st |}.

Definition setIsTesting (b : bool) (st : State) : State :=
  {| history := history st; isTesting := b; insights := insights st;
     nextRun := nextRun st; timeLeft := timeLeft st; stored := stored st;
     running := running st; flag_calls := flag_calls st ++ [b] |}.

Definition setInsights (i : NetworkInsight) (st : State) : State :=
  {| history := history st; isTesting := isTesting st; insights := Some i;
     nextRun := nextRun st; timeLeft := timeLeft st; stored := stored st;
     running := running st; flag_calls := flag_calls st |}.

Definition setNextRun (t : Z) (st : State) : State :=
  {| history := history st; isTesting := isTesting st; insights := insights st;
     nextRun := t; timeLeft := timeLeft st; stored := stored st;
     running := running st; flag_calls := flag_calls st |}.

Definition setTimeLeft (t : Z) (st : State) : State :=
  {| history := history st; isTesting := isTesting st; insights := insights st;
     nextRun := nextRun st; timeLeft := t; stored := stored st;
     running := running st; flag_calls := flag_calls st |}.

Definition set_running (cs : list Cycle) (st : State) : State :=
  {| history := history st; isTesting := isTesting st; insights := insights st;
     nextRun := nextRun st; timeLeft := timeLeft st; stored := stored st;
     running := cs; flag_calls := flag_calls st |}.

(** [cs] without its [i]-th element. *)
Definition remove_nth {A : Type} (i : nat) (cs : list A) : list A :=
  firstn i cs ++ skipn (S i) cs.

(** [cs] with [c] at index [i]. *)
Definition replace_nth {A : Type} (i : nat) (c : A) (cs : list A) : list A :=
  firstn i cs ++ c :: skipn (S i) cs.

(** [performTest], up to [await runSpeedTest()], as built by a render that
    holds the [isTesting] and the [history] of the state: the guard reads the
    flag the closure captured, which is then the flag of the state.  The
    closure of any render, current or not, is [Closures.performTest_of]. *)
Definition performTest (st : State) : State :=
  if isTesting st then st (* return *)
  else
    let st := setIsTesting true st in
    set_running (running st ++ [AwaitingProbe (history st)]) st.

(** The [finally] block, at the end of invocation [i]. *)
Definition finish (i : nat) (st : State) : State :=
  set_running (remove_nth i (running st)) (setIsTesting false st).

(** [performTest], invocation [i], from the result of [runSpeedTest] to
    [await getNetworkInsights(currentHistory)]; [now] is [Date.now()]. *)
Definition probe_done (i : nat) (result : SpeedResult) (now : Z) (st : State)
  : State :=
  match nth_error (running st) i with
  | Some (AwaitingProbe captured) =>
      let st := setHistory (history st ++ [result]) st in
      let st := setNextRun (now + TEST_INTERVAL_MS) st in
      let currentHistory := captured ++ [result] in
      if Nat.leb 1 (length currentHistory) then
        match getNetworkInsights JSON_parse trim currentHistory with
        | Return aiResponse => finish i (setInsights aiResponse st)
        | Await _ k => set_running (replace_nth i (AwaitingInsights k) (running st)) st
        end
      else finish i st
  | _ => st
  end.

(** [performTest], invocation [i], from the collaborator's response to the
    end. *)
Definition insights_done (i : nat) (response : Response) (st : State) : State :=
  match nth_error (running st) i with
  | Some (AwaitingInsights k) =>
      let aiResponse := k response in
      finish i (setInsights aiResponse st)
  | _ => st
  end.

(** The callback of [setInterval]; [now] is [Date.now()]. *)
Definition tick (now : Z) (st : State) : State :=
  let remaining := Z.max 0 (nextRun st - now) in
  let st := setTimeLeft remaining st in
  if (remaining <=? 0)%Z then performTest st else st.

(** The first render and its effects: the history is read from storage
    ([saved], empty when absent or unreadable), and [performTest] is called
    from the closure of the first render, whose [history] is empty. *)
Definition mount (saved : list SpeedResult) (now : Z) : State :=
  {| history := saved; isTesting := true; insights := None;
     nextRun := now + TEST_INTERVAL_MS; timeLeft := TEST_INTERVAL_MS;
     stored := slice_last 100 saved;
     running := [AwaitingProbe []]; flag_calls := [true] |}.

Inductive Event : Type :=
| RunNow                                              (* the button *)
| Tick (now : Z)                                      (* the interval *)
| ProbeDone (i : nat) (result : SpeedResult) (now : Z)
| InsightsDone (i : nat) (response : Response).

Definition step (st : State) (e : Event) : State :=
  match e with
  | RunNow => performTest st
  | Tick now => tick now st
  | ProbeDone i result now => probe_done i result now st
  | InsightsDone i response => insights_done i response st
  end.

(** The states the component goes through. *)
Inductive reachable : State -> Prop :=
| reachable_mount saved now : reachable (mount saved now)
| reachable_step st e : reachable st -> reachable (step st e).

End Scheduler.

(** The flag is set exactly while one invocation is suspended. *)
Definition one_cycle (st : State) : Prop :=
  (isTesting st = true /\ length (running st) = 1%nat) \/
  (isTesting st = false /\ running st = []).

(** The storage entry holds the last 100 samples of the history. *)
Definition stored_last_100 (st : State) : Prop :=
  stored st = slice_last 100 (history st).


End App.

(* ===================================================================== *)
(** ** The quantities the specification names *)
(* ===================================================================== *)

Module Spec.

Import SpeedTest.

(** The sum of finitely many rationals. *)
Definition Qsum (qs : list Q) : Q := fold_right Qplus 0 qs.

(** The arithmetic mean. *)
Definition mean (qs : list Q) : Q := Qsum qs / inject_Z (Z.of_nat (length qs)).

(** [m] is the largest (smallest) sample of [qs]. *)
Definition is_max (m : Q) (qs : list Q) : Prop :=
  In m qs /\ Forall (fun q => q <= m) qs.

Definition is_min (m : Q) (qs : list Q) : Prop :=
  In m qs /\ Forall (fun q => m <= q) qs.

(** What a latency attempt must record: the elapsed milliseconds when the
    round-trip completed, a value between 20 and 30 when it failed. *)
Definition latency_sample_ok (a : LatencyAttempt) (q : Q) : Prop :=
  match probe_outcome a with
  | ProbeResolved now => q = now - probe_start a
  | ProbeRejected _ => 20 <= q /\ q <= 30
  end.

(** The rational a latency attempt records. *)
Definition latency_value (a : LatencyAttempt) : Q :=
  match probe_outcome a with
  | ProbeResolved now => now - probe_start a
  | ProbeRejected random => inject_Z 20 + random * inject_Z 10
  end.

(** The five rationals of the latency phase. *)
Definition latency_values (env : Env) : list Q :=
  map (fun i => latency_value (latency_fetch env i)) (seq 0 5).

(** The download attempts of a cycle, in order. *)
Definition download_attempts (env : Env) : list DownloadAttempt :=
  map (download_fetch env) (seq 0 3).

(** The upload attempts of a cycle, in order. *)
Definition upload_attempts (env : Env) : list UploadAttempt :=
  map (upload_fetch env) (seq 0 2).




(** The throughput formula: [(bytes * 8) / 1_048_576 / seconds]. *)
Definition throughput (bytes : N) (seconds : number) : number :=
  div (div (mul (of_Z (Z.of_N bytes)) (of_Z 8)) (of_Z 1048576)) seconds.

(** Seconds elapsed between two readings of the millisecond clock. *)
Definition elapsed_seconds (start finish : Q) : number :=
  div (sub (Fin finish) (Fin start)) (of_Z 1000).

(** The result of an upload attempt as the specification words it: the
    measured throughput of the 1 MiB payload, or 0.4 times the download
    average when the attempt failed. *)
Definition upload_result (download_average : number) (a : UploadAttempt) : number :=
  match upload_outcome a with
  | ResponseReceived true finish =>
      throughput 1048576 (elapsed_seconds (upload_start a) finish)
  | _ => mul download_average (Fin (4 # 10))
  end.



(** Every transfer that was timed took a positive time on the clock. *)
Definition timed_download (a : DownloadAttempt) : Prop :=
  match download_outcome a with
  | BodyReceived _ finish => download_start a < finish
  | DownloadRejected => True
  end.

Definition timed_upload (a : UploadAttempt) : Prop :=
  match upload_outcome a with
  | ResponseReceived true finish => upload_start a < finish
  | _ => True
  end.

(** The reported [field] is a finite number between [lo] and [hi]. *)
Definition between (lo hi : Q) (field : number) : Prop :=
  exists r, field = Fin r /\ lo <= r /\ r <= hi.

End Spec.

(* ===================================================================== *)
(** ** Probe cycles used as examples *)
(* ===================================================================== *)

Module Scenarios.

Import SpeedTest.

Definition probe_25ms : LatencyAttempt :=
  {| probe_start := 0; probe_outcome := ProbeResolved 25 |}.

Definition upload_2s : UploadAttempt :=
  {| upload_start := 5000; upload_outcome := ResponseReceived true 7000 |}.

(** 13107200 bytes in one second: 100 Mbps. *)
Definition download_100mbps : DownloadAttempt :=
  {| download_start := 1000; download_outcome := BodyReceived 13107200 2000 |}.

Definition download_rejected : DownloadAttempt :=
  {| download_start := 1000; download_outcome := DownloadRejected |}.


(** About 600 kB received while the clock, read at a coarse resolution,
    did not advance. *)
Definition download_same_tick : DownloadAttempt :=
  {| download_start := 1000; download_outcome := BodyReceived 600000 1000 |}.

(** An empty body received while the clock did not advance. *)
Definition download_empty_same_tick : DownloadAttempt :=
  {| download_start := 1000; download_outcome := BodyReceived 0 1000 |}.

Definition cycle (downloads : nat -> DownloadAttempt) : Env :=
  {| latency_fetch := fun _ => probe_25ms;
     download_fetch := downloads;
     upload_fetch := fun _ => upload_2s;
     Date_now := 1700000000000 |}.

(** The first download completes within one tick of the clock. *)
Definition coarse_clock : Env :=
  cycle (fun i => match i with O => download_same_tick | _ => download_100mbps end).

(** The first download is an empty body within one tick of the clock. *)
Definition coarse_clock_empty : Env :=
  cycle (fun i => match i with O => download_empty_same_tick | _ => download_100mbps end).


(** The second download measures 100 Mbps, the other two fail. *)
Definition one_success : Env :=
  cycle (fun i => match i with S O => download_100mbps | _ => download_rejected end).

(** Every download fails. *)
Definition no_download : Env := cycle (fun _ => download_rejected).

(** Two latency probes fail, the uploads answer with an error status. *)
Definition flaky : Env :=
  {| latency_fetch := fun i =>
       match i with
       | O => {| probe_start := 0; probe_outcome := ProbeResolved 18 |}
       | S O => {| probe_start := 20; probe_outcome := ProbeRejected (1 # 2) |}
       | S (S O) => {| probe_start := 30; probe_outcome := ProbeResolved 72 |}
       | _ => {| probe_start := 80; probe_outcome := ProbeRejected (9 # 10) |}
       end;
     download_fetch := fun _ => download_100mbps;
     upload_fetch := fun i =>
       match i with
       | O => upload_2s
       | _ => {| upload_start := 7000; upload_outcome := ResponseReceived false 7100 |}
       end;
     Date_now := 1700000000000 |}.

(** The sample of the cycle [flaky]. *)
Definition sample : SpeedResult := runSpeedTest flaky.

(** A parser that rejects every text, and a [trim] with nothing to remove. *)
Definition reject_all : string -> option NetworkInsight := fun _ => None.
Definition no_blanks : string -> string := fun t => t.

(** The component mounted on a stored history of 100 samples. *)
Definition mounted_full : App.State := App.mount (repeat sample 100) 1700000000000.

(** A reply that is not JSON. *)
Definition garbled : GeminiService.Response :=
  GeminiService.Resolved (Some "<html>Bad Gateway</html>"%string).

(** The component after its first cycle: the probe has returned [sample] and
    the collaborator has sent the garbled reply. *)
Definition settled : App.State :=
  App.step reject_all no_blanks
    (App.step reject_all no_blanks mounted_full
       (App.ProbeDone 0 sample 1700000030000))
    (App.InsightsDone 0 garbled).

End Scenarios.

(* ===================================================================== *)
(** ** App.tsx: what the component renders *)
(* ===================================================================== *)

Module Display.

Import GeminiService App.

(** [String(n)] for an integer [n] of magnitude below [10^21]: its decimal
    digits, after a minus sign when it is negative. *)
Definition Number_toString (z : Z) : string :=
  NilZero.string_of_int (Z.to_int z).

(** [formatTimeRemaining], on the whole milliseconds the countdown holds:
    [Math.floor] of a quotient is the floor division, [%] is the remainder
    that takes the sign of the dividend.  The integers stand for doubles:
    this is what the code computes for a whole [ms] of magnitude below
    [2^53], which a double holds exactly; there [ms % 60000] is exact, the
    two rounded quotients lie further from the next integer (at least
    [1/60000]) than their rounding error (below [2^-16]), so their floors are
    those of the exact quotients, and the minutes print as plain digits.
    Beyond [2^53] the code rounds and the integers no longer follow it. *)
Definition formatTimeRemaining (ms : Z) : string :=
  let mins := (ms / 60000)%Z in
  let secs := (Z.rem ms 60000 / 1000)%Z in
  (Number_toString mins ++ ":"
     ++ (if (secs <? 10)%Z then "0" else "") ++ Number_toString secs)%string.

(** [history[history.length - 1]]: [undefined] for the empty history. *)
Definition currentResult (history : list SpeedResult) : option SpeedResult :=
  if Nat.eqb (length history) 0 then None
  else nth_error history (length history - 1).

(** A number in a condition: [0] and [NaN] count as false. *)
Definition truthy (x : number) : bool :=
  match x with
  | NaN => false
  | Fin q => negb (Qeq_bool q 0)
  | _ => true
  end.

(** The [value] of a [StatCard]: a number, or the string of three dashes. *)
Inductive CardValue : Type :=
| Dashes
| Reading (x : number).

(** [currentResult?.field || '---']. *)
Definition card_value (field : SpeedResult -> number)
    (current : option SpeedResult) : CardValue :=
  match current with
  | None => Dashes
  | Some r => if truthy (field r) then Reading (field r) else Dashes
  end.

(** The rows of the list of recent tests:
    [[...history].reverse().slice(0, 10)]. *)
Definition recentTests (history : list SpeedResult) : list SpeedResult :=
  firstn 10 (rev history).

Section Requests.

Variable JSON_parse : string -> option NetworkInsight.
Variable trim : string -> string.

(** The request [performTest] sends to the insight service when invocation
    [i] receives [result] from [runSpeedTest]: the argument of
    [getNetworkInsights] is [[...history, result]] with the [history] of the
    closure. *)
Definition insight_request (i : nat) (result : SpeedResult) (st : State)
  : option Prompt :=
  match nth_error (running st) i with
  | Some (AwaitingProbe captured) =>
      let currentHistory := captured ++ [result] in
      if Nat.leb 1 (length currentHistory) then
        match getNetworkInsights JSON_parse trim currentHistory with
        | Return _ => None
        | Await request _ => Some request
        end
      else None
  | _ => None
  end.

End Requests.

(** The calls of [setIsTesting] of [n] completed cycles, followed by the call
    of a cycle in progress when [busy]. *)
Fixpoint flag_pattern (n : nat) (busy : bool) : list bool :=
  match n with
  | O => if busy then [true] else []
  | S k => true :: false :: flag_pattern k busy
  end.

(** The calls of [setIsTesting] so far are those of whole cycles, and of the
    running one when the flag is set. *)
Definition flags_ok (st : State) : Prop :=
  exists n, flag_calls st = flag_pattern n (isTesting st).

(** A cycle waiting for the probe holds the history of the state, or the
    empty history of the first render. *)
Definition captured_ok (st : State) : Prop :=
  forall i c, nth_error (running st) i = Some (AwaitingProbe c) ->
              c = history st \/ c = [].

End Display.

(* ===================================================================== *)
(** ** App.tsx: the closures of a render *)
(* ===================================================================== *)

Module Closures.

Import GeminiService App.

(** The handlers of the component are closures built by a render.
    [performTest] is a [useCallback] over [[history, isTesting]]: it holds the
    [history] and the [isTesting] of the render that built it.  The callback
    of the interval is set up by an effect over [[nextRun, performTest]]: it
    holds the [nextRun] and the [performTest] of that render.  A state setter
    called by a handler updates the cell at once (a later functional update
    sees the new value), but the handlers in use stay those of the last render
    until the component renders again. *)
Record Render : Type := {
  seen_history : list SpeedResult;
  seen_isTesting : bool;
  seen_nextRun : Z
}.

(** What a render of the component in state [st] passes to its closures. *)
Definition render (st : State) : Render :=
  {| seen_history := history st;
     seen_isTesting := isTesting st;
     seen_nextRun := nextRun st |}.

(** [performTest] as built by render [r], up to [await runSpeedTest()]: the
    guard reads the [isTesting] of [r], and [currentHistory] will be made of
    the [history] of [r]. *)
Definition performTest_of (r : Render) (st : State) : State :=
  if seen_isTesting r then st (* return *)
  else
    let st := setIsTesting true st in
    set_running (running st ++ [AwaitingProbe (seen_history r)]) st.

(** The callback of [setInterval] as set up by render [r]. *)
Definition tick_of (r : Render) (now : Z) (st : State) : State :=
  let remaining := Z.max 0 (seen_nextRun r - now) in
  let st := setTimeLeft remaining st in
  if (remaining <=? 0)%Z then performTest_of r st else st.

(** The state cells of the component and the render whose handlers are in
    use. *)
Record Component : Type := {
  cells : State;
  handlers : Render
}.

(** The handlers in use hold the flag and the history of the state. *)
Definition current (c : Component) : Prop :=
  seen_isTesting (handlers c) = isTesting (cells c) /\
  seen_history (handlers c) = history (cells c).

Inductive Event : Type :=
| Commit                                       (* the component renders again *)
| Click                                        (* the button *)
| Interval (now : Z)                           (* the interval fires *)
| Probe (i : nat) (result : SpeedResult) (now : Z)
| Insights (i : nat) (response : Response).

(** A trigger that is handled by closures holding the current flag and
    history; the other events always qualify. *)
Definition seen_in_time (c : Component) (e : Event) : Prop :=
  match e with
  | Click | Interval _ => current c
  | _ => True
  end.

Section Scheduler.

Variable JSON_parse : string -> option NetworkInsight.
Variable trim : string -> string.

Definition step (c : Component) (e : Event) : Component :=
  match e with
  | Commit => {| cells := cells c; handlers := render (cells c) |}
  | Click =>
      {| cells := performTest_of (handlers c) (cells c); handlers := handlers c |}
  | Interval now =>
      {| cells := tick_of (handlers c) now (cells c); handlers := handlers c |}
  | Probe i result now =>
      {| cells := probe_done JSON_parse trim i result now (cells c);
         handlers := handlers c |}
  | Insights i response =>
      {| cells := insights_done i response (cells c); handlers := handlers c |}
  end.

(** The component after its first render and the effects of that render:
    the cells are those of [App.mount], the handlers are those of the first
    render, built before any state was set. *)
Definition mount (saved : list SpeedResult) (now : Z) : Component :=
  {| cells := App.mount saved now;
     handlers := {| seen_history := []; seen_isTesting := false;
                    seen_nextRun := now + TEST_INTERVAL_MS |} |}.

(** The component after a sequence of events. *)
Definition run (c : Component) (events : list Event) : Component :=
  fold_left step events c.

(** The states the component goes through. *)
Inductive reachable : Component -> Prop :=
| reachable_mount saved now : reachable (mount saved now)
| reachable_step c e : reachable c -> reachable (step c e).

(** The states the component goes through when every trigger is handled by
    closures that hold the current flag and history. *)
Inductive reachable_in_time : Component -> Prop :=
| in_time_mount saved now : reachable_in_time (mount saved now)
| in_time_step c e :
    reachable_in_time c -> seen_in_time c e -> reachable_in_time (step c e).

End Scheduler.

(** A first cycle from an empty storage, a render, then the interval firing
    at the deadline: the component before it renders again. *)
Definition timer_started : Component :=
  run Scenarios.reject_all Scenarios.no_blanks
    (mount [] 1700000000000)
    [Commit;
     Probe 0 Scenarios.sample 1700000030000;
     Insights 0 Scenarios.garbled;
     Commit;
     Interval 1700000630000].

End Closures.

(* ===================================================================== *)
(** ** Facts about numbers *)
(* ===================================================================== *)

Module JsNumberFacts.

Lemma num_eq_refl a : num_eq a a.
Proof. destruct a; simpl; auto. reflexivity. Qed.

Lemma num_eq_sym a b : num_eq a b -> num_eq b a.
Proof. destruct a, b; simpl; auto. intros H; symmetry; exact H. Qed.

Lemma num_eq_trans a b c : num_eq a b -> num_eq b c -> num_eq a c.
Proof.
  destruct a, b, c; simpl; auto; try contradiction.
  intros H1 H2. rewrite H1. exact H2.
Qed.

Lemma nonneg_Fin_inv a : nonneg a -> exists q, a = Fin q /\ 0 <= q.
Proof. destruct a; simpl; try contradiction. eauto. Qed.

Lemma add_compat a a' b b' :
  num_eq a a' -> num_eq b b' -> num_eq (add a b) (add a' b').
Proof.
  destruct a, a', b, b'; simpl; auto; try contradiction.
  intros H1 H2. rewrite H1, H2. reflexivity.
Qed.

Lemma Qeq_bool_compat x y z : x == y -> Qeq_bool x z = Qeq_bool y z.
Proof.
  intros H. destruct (Qeq_bool y z) eqn:E.
  - apply Qeq_bool_iff. apply Qeq_bool_iff in E. rewrite H. exact E.
  - destruct (Qeq_bool x z) eqn:E'; [|reflexivity].
    apply Qeq_bool_iff in E'. rewrite H in E'.
    apply Qeq_bool_iff in E'. congruence.
Qed.

Lemma Qle_bool_compat x x' y y' :
  x == x' -> y == y' -> Qle_bool x y = Qle_bool x' y'.
Proof.
  intros Hx Hy. destruct (Qle_bool x' y') eqn:E.
  - apply Qle_bool_iff. apply Qle_bool_iff in E. rewrite Hx, Hy. exact E.
  - destruct (Qle_bool x y) eqn:E'; [|reflexivity].
    apply Qle_bool_iff in E'. rewrite Hx, Hy in E'.
    apply Qle_bool_iff in E'. congruence.
Qed.

Lemma div_compat a a' b b' :
  num_eq a a' -> num_eq b b' -> num_eq (div a b) (div a' b').
Proof.
  destruct a, a', b, b'; simpl; auto; try contradiction.
  - intros _ H. rewrite (Qle_bool_compat 0 0 q q0 (Qeq_refl 0) H).
    destruct (Qle_bool 0 q0); simpl; auto.
  - intros _ H. rewrite (Qle_bool_compat 0 0 q q0 (Qeq_refl 0) H).
    destruct (Qle_bool 0 q0); simpl; auto.
  - intros; reflexivity.
  - intros; reflexivity.
  - intros H1 H2. rewrite (Qeq_bool_compat q1 q2 0 H2).
    destruct (Qeq_bool q2 0).
    + rewrite H1. destruct (q0 ?= 0); simpl; auto.
    + simpl. rewrite H1, H2. reflexivity.
Qed.

Lemma mul_compat a a' b b' :
  num_eq a a' -> num_eq b b' -> num_eq (mul a b) (mul a' b').
Proof.
  destruct a, a', b, b'; simpl; auto; try contradiction;
    unfold scale_inf;
    try (intros _ H; rewrite H; destruct (_ ?= 0); simpl; auto; fail);
    try (intros H _; rewrite H; destruct (_ ?= 0); simpl; auto; fail).
  intros H1 H2. rewrite H1, H2. reflexivity.
Qed.

Lemma pow10_pos d : 0 < pow10 d.
Proof.
  unfold pow10. change 0 with (inject_Z 0). rewrite <- Zlt_Qlt.
  apply Z.pow_pos_nonneg; lia.
Qed.

Lemma nearest_decimal_compat d x y :
  x == y -> nearest_decimal d x == nearest_decimal d y.
Proof. intros H. unfold nearest_decimal. rewrite H. reflexivity. Qed.

Lemma toFixed_compat d a b : num_eq a b -> num_eq (toFixed d a) (toFixed d b).
Proof.
  destruct a, b; simpl; auto; try contradiction.
  intros H.
  rewrite (Qle_bool_compat (pow10 21) (pow10 21) (Qabs q) (Qabs q0));
    [| reflexivity | rewrite H; reflexivity ].
  rewrite (Qle_bool_compat 0 0 q q0 (Qeq_refl 0) H).
  destruct (Qle_bool (pow10 21) (Qabs q0)); simpl; auto.
  destruct (Qle_bool 0 q0); simpl.
  - apply nearest_decimal_compat; exact H.
  - apply Qopp_comp. apply nearest_decimal_compat. rewrite H. reflexivity.
Qed.

Lemma nearest_decimal_nonneg d q : 0 <= q -> 0 <= nearest_decimal d q.
Proof.
  intros H. unfold nearest_decimal.
  apply Qle_shift_div_l; [apply pow10_pos|]. rewrite Qmult_0_l.
  change 0 with (inject_Z 0). rewrite <- Zle_Qle.
  change 0%Z with (Qfloor 0). apply Qfloor_resp_le.
  pose proof (pow10_pos d). nra.
Qed.

Lemma toFixed_nonneg d a : nonneg a -> nonneg (toFixed d a).
Proof.
  destruct a; simpl; try contradiction. intros H.
  destruct (Qle_bool (pow10 21) (Qabs q)); simpl; [exact H|].
  assert (E : Qle_bool 0 q = true) by (apply Qle_bool_iff; exact H).
  rewrite E. simpl. apply nearest_decimal_nonneg; exact H.
Qed.

Lemma toFixed_isFinite d a : isFinite (toFixed d a) = isFinite a.
Proof.
  destruct a; simpl; auto.
  destruct (Qle_bool (pow10 21) (Qabs q)); simpl; auto.
  destruct (Qle_bool 0 q); reflexivity.
Qed.

Lemma nonneg_isFinite a : nonneg a -> isFinite a = true.
Proof. destruct a; simpl; auto; contradiction. Qed.

Lemma nonneg_compat a b : num_eq a b -> nonneg a -> nonneg b.
Proof.
  destruct a, b; simpl; auto; try contradiction.
  intros H H0. rewrite <- H. exact H0.
Qed.

End JsNumberFacts.

(* ===================================================================== *)
(** ** Facts about lists of samples *)
(* ===================================================================== *)

Module SampleFacts.

Import SpeedTest Spec JsNumberFacts.

Lemma fold_add_Fin qs a :
  fold_left add (map Fin qs) (Fin a) = Fin (fold_left Qplus qs a).
Proof.
  revert a. induction qs as [|q qs IH]; intros a; simpl; [reflexivity|].
  apply IH.
Qed.

Lemma fold_Qplus_Qsum qs a : fold_left Qplus qs a == a + Qsum qs.
Proof.
  revert a. induction qs as [|q qs IH]; intros a; simpl.
  - ring.
  - rewrite IH. ring.
Qed.

Lemma sum_Fin qs : num_eq (sum (map Fin qs)) (Fin (Qsum qs)).
Proof.
  unfold sum. rewrite fold_add_Fin. simpl.
  rewrite fold_Qplus_Qsum. ring.
Qed.

Lemma Qsum_nonneg qs : Forall (fun q => 0 <= q) qs -> 0 <= Qsum qs.
Proof.
  induction 1 as [|q qs Hq _ IH]; simpl; [apply Qle_refl|]. lra.
Qed.

Lemma max2_Fin a b : max2 (Fin a) (Fin b) = Fin (if Qle_bool b a then a else b).
Proof. simpl. destruct (Qle_bool b a); reflexivity. Qed.

Lemma min2_Fin a b : min2 (Fin a) (Fin b) = Fin (if Qle_bool a b then a else b).
Proof. simpl. destruct (Qle_bool a b); reflexivity. Qed.

Lemma fold_max2_Fin qs m :
  exists hi, fold_left max2 (map Fin qs) (Fin m) = Fin hi /\ is_max hi (m :: qs).
Proof.
  revert m. induction qs as [|q qs IH]; intros m.
  - exists m. split; [reflexivity|]. split; [left; reflexivity|].
    constructor; [apply Qle_refl | constructor].
  - cbn [map fold_left]. rewrite max2_Fin.
    destruct (Qle_bool q m) eqn:E.
    + apply Qle_bool_iff in E.
      destruct (IH m) as (hi & Hf & Hin & Hall).
      exists hi. split; [exact Hf|]. split.
      * destruct Hin as [->|Hin]; [left; reflexivity | right; right; exact Hin].
      * inversion Hall as [|? ? Hm Hrest]; subst.
        constructor; [exact Hm|]. constructor; [lra | exact Hrest].
    + assert (Hlt : m < q).
      { apply Qnot_le_lt. intros H. apply Qle_bool_iff in H. congruence. }
      destruct (IH q) as (hi & Hf & Hin & Hall).
      exists hi. split; [exact Hf|]. split.
      * right. exact Hin.
      * inversion Hall as [|? ? Hq Hrest]; subst.
        constructor; [lra|]. constructor; [exact Hq | exact Hrest].
Qed.

Lemma fold_min2_Fin qs m :
  exists lo, fold_left min2 (map Fin qs) (Fin m) = Fin lo /\ is_min lo (m :: qs).
Proof.
  revert m. induction qs as [|q qs IH]; intros m.
  - exists m. split; [reflexivity|]. split; [left; reflexivity|].
    constructor; [apply Qle_refl | constructor].
  - cbn [map fold_left]. rewrite min2_Fin.
    destruct (Qle_bool m q) eqn:E.
    + apply Qle_bool_iff in E.
      destruct (IH m) as (lo & Hf & Hin & Hall).
      exists lo. split; [exact Hf|]. split.
      * destruct Hin as [->|Hin]; [left; reflexivity | right; right; exact Hin].
      * inversion Hall as [|? ? Hm Hrest]; subst.
        constructor; [exact Hm|]. constructor; [lra | exact Hrest].
    + assert (Hlt : q < m).
      { apply Qnot_le_lt. intros H. apply Qle_bool_iff in H. congruence. }
      destruct (IH q) as (lo & Hf & Hin & Hall).
      exists lo. split; [exact Hf|]. split.
      * right. exact Hin.
      * inversion Hall as [|? ? Hq Hrest]; subst.
        constructor; [lra|]. constructor; [exact Hq | exact Hrest].
Qed.

(** [Math.max] of at least one finite number is the largest of them. *)
Lemma Math_max_Fin q qs :
  exists hi, Math_max (map Fin (q :: qs)) = Fin hi /\ is_max hi (q :: qs).
Proof. unfold Math_max. cbn [map fold_left]. apply fold_max2_Fin. Qed.

(** [Math.min] of at least one finite number is the smallest of them. *)
Lemma Math_min_Fin q qs :
  exists lo, Math_min (map Fin (q :: qs)) = Fin lo /\ is_min lo (q :: qs).
Proof. unfold Math_min. cbn [map fold_left]. apply fold_min2_Fin. Qed.

(** The loop pushes [body i], [body (i+1)], ... in order. *)
Lemma for_push_map {A} (body : nat -> A) i steps acc :
  for_push body i steps acc = acc ++ map body (seq i steps).
Proof.
  revert i acc. induction steps as [|k IH]; intros i acc; simpl.
  - rewrite app_nil_r. reflexivity.
  - rewrite IH, <- app_assoc. reflexivity.
Qed.

End SampleFacts.

(* ===================================================================== *)
(** ** The probe engine *)
(* ===================================================================== *)

Module SpeedTestFacts.

Import SpeedTest Spec Scenarios JsNumberFacts SampleFacts.

(** Closes [~ c == 0] for a constant [c]. *)
Ltac nonzero := let H := fresh in intro H; vm_compute in H; discriminate H.

Lemma div_Fin x y : ~ y == 0 -> div (Fin x) (Fin y) = Fin (x / y).
Proof.
  intros H. simpl. destruct (Qeq_bool y 0) eqn:E; [|reflexivity].
  apply Qeq_bool_iff in E. contradiction.
Qed.

Lemma div_Fin_zero x y : y == 0 -> 0 < x -> div (Fin x) (Fin y) = PInf.
Proof.
  intros Hy Hx. simpl.
  assert (E : Qeq_bool y 0 = true) by (apply Qeq_bool_iff; exact Hy).
  rewrite E. apply Qgt_alt in Hx. rewrite Hx. reflexivity.
Qed.

Lemma add_0_l a : num_eq (add (Fin 0) a) a.
Proof. destruct a; simpl; auto. ring. Qed.

Lemma of_nat_pos n : (1 <= n)%nat -> 0 < inject_Z (Z.of_nat n).
Proof. intros H. change 0 with (inject_Z 0). rewrite <- Zlt_Qlt. lia. Qed.

Lemma nonneg_div_of_nat a n : nonneg a -> (1 <= n)%nat -> nonneg (div a (of_nat n)).
Proof.
  intros Ha Hn. apply nonneg_Fin_inv in Ha. destruct Ha as (q & -> & Hq).
  pose proof (of_nat_pos n Hn) as Hp.
  unfold of_nat, of_Z. rewrite div_Fin by lra. simpl.
  apply Qle_shift_div_l; [exact Hp|]. lra.
Qed.

Lemma nonneg_add a b : nonneg a -> nonneg b -> nonneg (add a b).
Proof.
  intros Ha Hb. apply nonneg_Fin_inv in Ha, Hb.
  destruct Ha as (x & -> & Hx), Hb as (y & -> & Hy). simpl. lra.
Qed.

Lemma nonneg_mul a b : nonneg a -> nonneg b -> nonneg (mul a b).
Proof.
  intros Ha Hb. apply nonneg_Fin_inv in Ha, Hb.
  destruct Ha as (x & -> & Hx), Hb as (y & -> & Hy). simpl. nra.
Qed.

Lemma nonneg_fold_add xs a :
  nonneg a -> Forall nonneg xs -> nonneg (fold_left add xs a).
Proof.
  intros Ha H. revert a Ha. induction H as [|x xs Hx _ IH]; intros a Ha; simpl.
  - exact Ha.
  - apply IH. apply nonneg_add; assumption.
Qed.

Lemma nonneg_sum xs : Forall nonneg xs -> nonneg (sum xs).
Proof. intros H. apply nonneg_fold_add; [simpl; lra | exact H]. Qed.

(** *** The three loops, unrolled *)

Lemma latencies_eq env :
  latencies env = map (fun i => latency_sample (latency_fetch env i)) (seq 0 5).
Proof. unfold latencies. rewrite for_push_map. reflexivity. Qed.

Lemma downloadSpeeds_eq env :
  downloadSpeeds env = map download_sample (download_attempts env).
Proof.
  unfold downloadSpeeds, download_attempts.
  rewrite for_push_map, map_map. reflexivity.
Qed.

Lemma uploadSpeeds_eq env :
  uploadSpeeds env = map (upload_sample (avgDownload env)) (upload_attempts env).
Proof.
  unfold uploadSpeeds, upload_attempts.
  rewrite for_push_map, map_map. reflexivity.
Qed.

(** *** Latency samples *)

Lemma latency_sample_Fin a : latency_sample a = Fin (latency_value a).
Proof.
  unfold latency_sample, latency_value. destruct (probe_outcome a); reflexivity.
Qed.

Lemma latency_value_ok a : wf_latency a -> latency_sample_ok a (latency_value a).
Proof.
  unfold wf_latency, latency_sample_ok, latency_value.
  destruct (probe_outcome a) as [now|r]; [reflexivity|].
  change (inject_Z 20) with 20. change (inject_Z 10) with 10.
  intros [H0 H1]. split; lra.
Qed.

Lemma latency_value_nonneg a : wf_latency a -> 0 <= latency_value a.
Proof.
  unfold wf_latency, latency_value.
  destruct (probe_outcome a) as [now|r].
  - intros H. lra.
  - change (inject_Z 20) with 20. change (inject_Z 10) with 10.
    intros [H0 H1]. lra.
Qed.

Lemma latencies_Fin env : latencies env = map Fin (latency_values env).
Proof.
  rewrite latencies_eq. unfold latency_values. rewrite map_map.
  apply map_ext. intros i. apply latency_sample_Fin.
Qed.

Lemma avgLatency_mean env : num_eq (avgLatency env) (Fin (mean (latency_values env))).
Proof.
  unfold avgLatency. rewrite latencies_Fin, length_map.
  unfold sum. rewrite fold_add_Fin.
  assert (Hlen : length (latency_values env) = 5%nat).
  { unfold latency_values. rewrite length_map, length_seq. reflexivity. }
  unfold of_nat, of_Z, mean. rewrite Hlen.
  rewrite div_Fin by discriminate.
  change (fold_left Qplus (latency_values env) 0 / inject_Z (Z.of_nat 5)
          == Qsum (latency_values env) / inject_Z (Z.of_nat 5)).
  rewrite fold_Qplus_Qsum. field.
Qed.

Lemma jitter_range env :
  exists hi lo,
    is_max hi (latency_values env) /\ is_min lo (latency_values env) /\
    jitter_of env = Fin (hi - lo).
Proof.
  unfold jitter_of. rewrite latencies_Fin.
  assert (Hcons : exists q qs, latency_values env = q :: qs).
  { unfold latency_values. cbn [seq map]. eauto. }
  destruct Hcons as (q & qs & ->).
  destruct (Math_max_Fin q qs) as (hi & Hmax & Hhi).
  destruct (Math_min_Fin q qs) as (lo & Hmin & Hlo).
  exists hi, lo. split; [exact Hhi|]. split; [exact Hlo|].
  rewrite Hmax, Hmin. reflexivity.
Qed.

(** C3.  The latency phase yields exactly five finite samples: an attempt
    that completed records its elapsed milliseconds, an attempt that failed
    records a value between 20 and 30; the latency is the arithmetic mean of
    the five samples and the jitter is their largest minus their smallest
    (each rounded to one decimal in the sample returned), however many
    attempts failed. *)
Theorem latency_phase_five_samples (env : Env)
    (Hwf : forall i, wf_latency (latency_fetch env i)) :
  exists qs : list Q,
    latencies env = map Fin qs /\
    length qs = 5%nat /\
    (forall i, (i < 5)%nat ->
       latency_sample_ok (latency_fetch env i) (nth i qs 0)) /\
    num_eq (avgLatency env) (Fin (mean qs)) /\
    (exists hi lo,
       is_max hi qs /\ is_min lo qs /\ jitter_of env = Fin (hi - lo)) /\
    latency (runSpeedTest env) = toFixed 1 (avgLatency env) /\
    jitter (runSpeedTest env) = toFixed 1 (jitter_of env).
Proof.
  exists (latency_values env).
  split; [apply latencies_Fin|].
  split; [unfold latency_values; rewrite length_map, length_seq; reflexivity|].
  split.
  { intros i Hi. unfold latency_values.
    do 5 (destruct i as [|i]; [cbn [seq map nth]; apply latency_value_ok, Hwf|]).
    lia. }
  split; [apply avgLatency_mean|].
  split; [apply jitter_range|].
  split; reflexivity.
Qed.

Lemma latency_phase_five_samples_witness :
  (forall i, wf_latency (latency_fetch flaky i)) /\
  exists qs : list Q,
    latencies flaky = map Fin qs /\ length qs = 5%nat /\
    latency_sample_ok (latency_fetch flaky 1) (nth 1 qs 0).
Proof.
  assert (Hwf : forall i, wf_latency (latency_fetch flaky i)).
  { intros [|[|[|i]]]; unfold wf_latency; simpl;
      repeat split; unfold Qle, Qlt; simpl; lia. }
  split; [exact Hwf|].
  destruct (latency_phase_five_samples flaky Hwf) as (qs & H1 & H2 & H3 & _).
  exists qs. split; [exact H1|]. split; [exact H2|].
  apply H3. lia.
Defined.

(** *** Download samples *)

Lemma Qdiv_nonneg a b : 0 <= a -> 0 < b -> 0 <= a / b.
Proof.
  intros Ha Hb. apply Qle_shift_div_l; [exact Hb|]. rewrite Qmult_0_l. exact Ha.
Qed.

Lemma inject_N_nonneg (n : N) : 0 <= inject_Z (Z.of_N n).
Proof. change 0 with (inject_Z 0). rewrite <- Zle_Qle. lia. Qed.

Lemma elapsed_seconds_Fin start finish :
  elapsed_seconds start finish = Fin ((finish - start) / inject_Z 1000).
Proof. unfold elapsed_seconds, sub, of_Z. cbn [neg add]. apply div_Fin. nonzero. Qed.

Lemma megabits_Fin (bits : Q) :
  div (div (Fin bits) (of_Z 1024)) (of_Z 1024)
  = Fin (bits / inject_Z 1024 / inject_Z 1024).
Proof. unfold of_Z. rewrite !div_Fin by nonzero. reflexivity. Qed.

Lemma download_sample_received start size finish :
  download_sample
    {| download_start := start; download_outcome := BodyReceived size finish |}
  = div (Fin (inject_Z (Z.of_N size) * inject_Z 8 / inject_Z 1024 / inject_Z 1024))
        (Fin ((finish - start) / inject_Z 1000)).
Proof.
  unfold download_sample. cbn [download_start download_outcome].
  change (sub (Fin finish) (Fin start)) with (Fin (finish - start)).
  change (mul (of_Z (Z.of_N size)) (of_Z 8))
    with (Fin (inject_Z (Z.of_N size) * inject_Z 8)).
  rewrite megabits_Fin. unfold of_Z.
  rewrite (div_Fin _ (inject_Z 1000)) by nonzero. reflexivity.
Qed.

Lemma download_sample_failed a :
  download_failed a = true -> download_sample a = of_Z 0.
Proof.
  unfold download_failed, download_sample.
  destruct (download_outcome a); [discriminate | reflexivity].
Qed.

Lemma download_sample_nonneg a : timed_download a -> nonneg (download_sample a).
Proof.
  destruct a as [start [size finish|]]; unfold timed_download;
    cbn [download_start download_outcome]; intros H.
  - rewrite download_sample_received.
    assert (Hd : 0 < (finish - start) / inject_Z 1000).
    { apply Qlt_shift_div_l; [reflexivity|]. lra. }
    rewrite div_Fin by lra. simpl.
    apply Qdiv_nonneg; [|exact Hd].
    apply Qdiv_nonneg; [|reflexivity].
    apply Qdiv_nonneg; [|reflexivity].
    pose proof (inject_N_nonneg size). change (inject_Z 8) with 8. lra.
  - simpl. apply Qle_refl.
Qed.

Lemma downloadSpeeds_three env :
  downloadSpeeds env =
    [download_sample (download_fetch env 0);
     download_sample (download_fetch env 1);
     download_sample (download_fetch env 2)].
Proof. rewrite downloadSpeeds_eq. reflexivity. Qed.









Lemma avgDownload_nonneg env :
  (forall i, timed_download (download_fetch env i)) -> nonneg (avgDownload env).
Proof.
  intros H. unfold avgDownload, average_download.
  apply nonneg_div_of_nat; [|lia].
  apply nonneg_sum. rewrite downloadSpeeds_three.
  repeat constructor; apply download_sample_nonneg, H.
Qed.

(** C9.  A download attempt whose body arrived measures
    [(bytes_received * 8) / 1048576 / duration_seconds] megabits per second,
    where [duration_seconds] is the time elapsed on the clock from the start
    of the request to the receipt of the body; when the clock advanced this
    is the rational of that name. *)
Theorem download_throughput_formula (start finish : Q) (size : N) :
  let attempt :=
    {| download_start := start; download_outcome := BodyReceived size finish |} in
  num_eq (download_sample attempt)
         (throughput size (elapsed_seconds start finish)) /\
  (start < finish ->
   num_eq (download_sample attempt)
          (Fin (inject_Z (Z.of_N size) * 8 / 1048576 / ((finish - start) / 1000)))).
Proof.
  intros attempt. unfold attempt. rewrite download_sample_received.
  rewrite elapsed_seconds_Fin. unfold throughput.
  change (mul (of_Z (Z.of_N size)) (of_Z 8))
    with (Fin (inject_Z (Z.of_N size) * inject_Z 8)).
  unfold of_Z. rewrite (div_Fin _ (inject_Z 1048576)) by nonzero.
  assert (Hbits :
    inject_Z (Z.of_N size) * inject_Z 8 / inject_Z 1024 / inject_Z 1024
    == inject_Z (Z.of_N size) * inject_Z 8 / inject_Z 1048576).
  { field. }
  split.
  - apply div_compat; [exact Hbits | apply num_eq_refl].
  - intros Hlt.
    assert (Hd : 0 < (finish - start) / inject_Z 1000).
    { apply Qlt_shift_div_l; [reflexivity|]. lra. }
    rewrite div_Fin by lra.
    change ((inject_Z (Z.of_N size) * inject_Z 8 / inject_Z 1024 / inject_Z 1024)
              / ((finish - start) / inject_Z 1000)
            == inject_Z (Z.of_N size) * 8 / 1048576 / ((finish - start) / 1000)).
    rewrite Hbits. reflexivity.
Qed.

Lemma download_throughput_formula_witness :
  1000 < 2000 /\ num_eq (download_sample download_100mbps) (Fin 100).
Proof.
  split; [reflexivity|].
  destruct (download_throughput_formula 1000 2000 13107200) as [_ H].
  eapply num_eq_trans; [apply H; reflexivity|].
  vm_compute. reflexivity.
Defined.







(** *** Upload samples *)

Lemma upload_sample_result avg a :
  num_eq (upload_sample avg a) (upload_result avg a).
Proof.
  unfold upload_sample, upload_result.
  destruct (upload_outcome a) as [[|] finish|]; [|apply num_eq_refl..].
  unfold throughput, elapsed_seconds.
  apply div_compat; [|apply num_eq_refl].
  vm_compute. reflexivity.
Qed.

Lemma upload_sample_failed avg a :
  upload_failed a = true -> upload_sample avg a = mul avg (Fin (4 # 10)).
Proof.
  unfold upload_failed, upload_sample.
  destruct (upload_outcome a) as [[|] finish|]; [discriminate| |]; reflexivity.
Qed.

Lemma uploadSpeeds_two env :
  uploadSpeeds env =
    [upload_sample (avgDownload env) (upload_fetch env 0);
     upload_sample (avgDownload env) (upload_fetch env 1)].
Proof. rewrite uploadSpeeds_eq. reflexivity. Qed.

Lemma upload_sample_nonneg avg a :
  nonneg avg -> timed_upload a -> nonneg (upload_sample avg a).
Proof.
  intros Havg. destruct a as [start [[|] finish|]]; unfold timed_upload, upload_sample;
    cbn [upload_start upload_outcome]; intros H;
    try (apply nonneg_mul; [exact Havg | simpl; unfold Qle; simpl; lia]).
  change (sub (Fin finish) (Fin start)) with (Fin (finish - start)).
  change (mul (of_Z uploadSize) (of_Z 8))
    with (Fin (inject_Z uploadSize * inject_Z 8)).
  rewrite megabits_Fin. unfold of_Z.
  rewrite (div_Fin _ (inject_Z 1000)) by nonzero.
  assert (Hd : 0 < (finish - start) / inject_Z 1000).
  { apply Qlt_shift_div_l; [reflexivity|]. lra. }
  rewrite div_Fin by lra. simpl.
  apply Qdiv_nonneg; [|exact Hd]. unfold Qle; simpl; lia.
Qed.

(** C4.  Each of the two upload attempts yields the measured throughput of
    the 1 MiB payload when it succeeded and 0.4 times the download average
    when it failed, a response with a non-success status included; the
    upload is the sum of the two results over 2 (rounded to two decimals in
    the sample returned). *)
Theorem upload_average_of_two (env : Env) :
  let results := map (upload_result (avgDownload env)) (upload_attempts env) in
  length (uploadSpeeds env) = 2%nat /\
  Forall2 num_eq (uploadSpeeds env) results /\
  (forall i, upload_failed (upload_fetch env i) = true ->
     upload_sample (avgDownload env) (upload_fetch env i)
     = mul (avgDownload env) (Fin (4 # 10))) /\
  (forall start finish,
     upload_failed
       {| upload_start := start; upload_outcome := ResponseReceived false finish |}
     = true) /\
  num_eq (avgUpload env)
         (div (add (nth 0 results NaN) (nth 1 results NaN)) (of_Z 2)) /\
  upload (runSpeedTest env) = toFixed 2 (avgUpload env).
Proof.
  intros results. unfold results, upload_attempts. cbn [seq map nth].
  split; [rewrite uploadSpeeds_two; reflexivity|].
  split.
  { rewrite uploadSpeeds_two.
    repeat (constructor; [apply upload_sample_result|]). constructor. }
  split; [intros i Hi; apply upload_sample_failed; exact Hi|].
  split; [reflexivity|].
  split; [|reflexivity].
  unfold avgUpload. rewrite uploadSpeeds_two.
  apply div_compat; [|apply num_eq_refl].
  unfold sum. cbn [fold_left].
  apply add_compat; [|apply upload_sample_result].
  eapply num_eq_trans; [apply add_0_l | apply upload_sample_result].
Qed.

Lemma upload_average_of_two_witness :
  upload_failed (upload_fetch flaky 1) = true /\
  upload_sample (avgDownload flaky) (upload_fetch flaky 1)
  = mul (avgDownload flaky) (Fin (4 # 10)).
Proof.
  split; [reflexivity|].
  destruct (upload_average_of_two flaky) as (_ & _ & H & _).
  apply H. reflexivity.
Defined.

Lemma avgUpload_nonneg env :
  (forall i, timed_download (download_fetch env i)) ->
  (forall i, timed_upload (upload_fetch env i)) ->
  nonneg (avgUpload env).
Proof.
  intros Hd Hu. unfold avgUpload. rewrite uploadSpeeds_two.
  apply nonneg_div_of_nat; [|simpl; lia].
  apply nonneg_sum.
  repeat constructor; apply upload_sample_nonneg; auto using avgDownload_nonneg.
Qed.

(** *** The sample *)

Lemma avgLatency_nonneg env :
  (forall i, wf_latency (latency_fetch env i)) -> nonneg (avgLatency env).
Proof.
  intros H. apply nonneg_compat with (a := Fin (mean (latency_values env))).
  { apply num_eq_sym, avgLatency_mean. }
  simpl. unfold mean.
  assert (Hlen : length (latency_values env) = 5%nat).
  { unfold latency_values. rewrite length_map, length_seq. reflexivity. }
  rewrite Hlen. apply Qdiv_nonneg; [|reflexivity].
  apply Qsum_nonneg. unfold latency_values.
  apply Forall_map, Forall_forall. intros i _. apply latency_value_nonneg, H.
Qed.

Lemma jitter_nonneg env : nonneg (jitter_of env).
Proof.
  destruct (jitter_range env) as (hi & lo & [Hin _] & [_ Hlo] & ->).
  simpl. rewrite Forall_forall in Hlo. specialize (Hlo hi Hin). lra.
Qed.

(** When every transfer that was timed took a positive time on the clock,
    the sample has five finite fields, none below zero. *)
Lemma runSpeedTest_sample_finite env :
  (forall i, wf_latency (latency_fetch env i)) ->
  (forall i, timed_download (download_fetch env i)) ->
  (forall i, timed_upload (upload_fetch env i)) ->
  let r := runSpeedTest env in
  isFinite (timestamp r) = true /\
  nonneg (download r) /\ nonneg (upload r) /\
  nonneg (latency r) /\ nonneg (jitter r).
Proof.
  intros Hl Hd Hu r. unfold r. cbn [runSpeedTest timestamp download upload latency jitter].
  split; [reflexivity|].
  split; [apply toFixed_nonneg, avgDownload_nonneg, Hd|].
  split; [apply toFixed_nonneg, avgUpload_nonneg; assumption|].
  split; [apply toFixed_nonneg, avgLatency_nonneg, Hl|].
  apply toFixed_nonneg, jitter_nonneg.
Qed.

(** With every request of the cycle rejected the sample is still complete:
    no download, no upload, and a latency and a jitter made of synthetic
    values. *)
Lemma runSpeedTest_outage (r : nat -> Q) (now : Z) :
  (forall i, 0 <= r i /\ r i < 1) ->
  let s := runSpeedTest (outage r now) in
  timestamp s = of_Z now /\
  num_eq (download s) (Fin 0) /\ num_eq (upload s) (Fin 0) /\
  nonneg (latency s) /\ nonneg (jitter s).
Proof.
  intros Hr s. unfold s.
  split; [reflexivity|].
  split; [vm_compute; reflexivity|].
  split; [vm_compute; reflexivity|].
  apply (runSpeedTest_sample_finite (outage r now)).
  - intros i. exact (Hr i).
  - intros i. exact I.
  - intros i. exact I.
Qed.

(** The payload is filled by 16 calls of [crypto.getRandomValues], each
    within the limit of one call, which cover the 1 MiB exactly; the loop
    then stops. *)
Lemma chunk_sizes_payload :
  chunk_sizes 17 0 uploadSize = repeat MAX_CRYPTO_CHUNK 16 /\
  Forall (fun c => (0 < c <= MAX_CRYPTO_CHUNK)%Z) (chunk_sizes 17 0 uploadSize) /\
  fold_right Z.add 0%Z (chunk_sizes 17 0 uploadSize) = uploadSize.
Proof.
  split; [reflexivity|]. split; [|reflexivity].
  change (chunk_sizes 17 0 uploadSize) with (repeat MAX_CRYPTO_CHUNK 16).
  apply Forall_forall. intros c Hc. apply repeat_spec in Hc. subst c.
  unfold MAX_CRYPTO_CHUNK. lia.
Qed.

(** A body of at least one byte received before the clock advances is
    recorded as an infinite throughput. *)
Lemma download_sample_same_tick (start : Q) (size : N) :
  (0 < size)%N ->
  download_sample
    {| download_start := start; download_outcome := BodyReceived size start |}
  = PInf.
Proof.
  intros Hsize. rewrite download_sample_received.
  apply div_Fin_zero.
  - field.
  - assert (H : 0 < inject_Z (Z.of_N size)).
    { change 0 with (inject_Z 0). rewrite <- Zlt_Qlt. lia. }
    repeat (apply Qlt_shift_div_l; [reflexivity|]). rewrite !Qmult_0_l.
    change (inject_Z 8) with 8. lra.
Qed.

(** C1 fails on the code.  A download whose body arrives before the clock
    advances divides a positive number of megabits by zero seconds: the
    sample reports an infinite download speed. *)
Theorem download_infinite_on_coarse_clock :
  wf_env coarse_clock /\
  download_sample (download_fetch coarse_clock 0) = PInf /\
  download (runSpeedTest coarse_clock) = PInf /\
  isFinite (download (runSpeedTest coarse_clock)) = false.
Proof.
  split.
  { split; intros i.
    - unfold wf_latency; simpl. unfold Qle; simpl; lia.
    - destruct i as [|i]; unfold wf_download; simpl; unfold Qle; simpl; lia.
    - unfold wf_upload; simpl. unfold Qle; simpl; lia. }
  repeat split; reflexivity.
Qed.

(** The same with an empty body: [0 / 0] is [NaN], and [NaN] spreads to the
    download average and to the sample. *)
Lemma download_nan_on_coarse_clock :
  download_sample (download_fetch coarse_clock_empty 0) = NaN /\
  download (runSpeedTest coarse_clock_empty) = NaN.
Proof. split; reflexivity. Qed.

End SpeedTestFacts.

(* ===================================================================== *)
(** ** The insight service *)
(* ===================================================================== *)

Module GeminiServiceFacts.

Import GeminiService Scenarios.

Section Service.

Variable JSON_parse : string -> option NetworkInsight.
Variable trim : string -> string.

Lemma read_response_failed response :
  collaborator_failed JSON_parse trim response = true ->
  read_response JSON_parse trim response = unable_to_connect.
Proof.
  destruct response as [|[t|]]; simpl; [reflexivity| |reflexivity].
  destruct t as [|c t]; [reflexivity|].
  destruct (JSON_parse (trim (String c t))); [discriminate | reflexivity].
Qed.

Lemma getNetworkInsights_nonempty h t :
  exists request,
    getNetworkInsights JSON_parse trim (h :: t)
    = Await request (read_response JSON_parse trim).
Proof. eexists. reflexivity. Qed.

(** C8.  For the empty history the insight function returns at once the
    fixed triple of status fair, with the insufficient-data summary and
    the keep-monitoring recommendation, which is not the triple of a
    failure; the collaborator is not invoked, so no response can change
    the result. *)
Theorem empty_history_insight :
  getNetworkInsights JSON_parse trim [] = Return insufficient_data /\
  invoked (getNetworkInsights JSON_parse trim []) = false /\
  (forall response,
     settle (getNetworkInsights JSON_parse trim []) response = insufficient_data) /\
  status insufficient_data = fair /\
  summary insufficient_data = "Insufficient data to analyze."%string /\
  recommendations insufficient_data = ["Keep monitoring to gather trends."%string] /\
  insufficient_data <> unable_to_connect.
Proof. repeat split; try reflexivity. discriminate. Qed.

End Service.

End GeminiServiceFacts.

(* ===================================================================== *)
(** ** The scheduler and the history store *)
(* ===================================================================== *)

Module AppFacts.

Import GeminiService App Scenarios GeminiServiceFacts.

(** *** Slices *)

Lemma slice_last_length {A} n (xs : list A) : (length (slice_last n xs) <= n)%nat.
Proof. unfold slice_last. rewrite length_skipn. lia. Qed.

Lemma slice_last_suffix {A} n (xs : list A) :
  exists older, xs = older ++ slice_last n xs.
Proof.
  exists (firstn (length xs - n) xs). unfold slice_last.
  symmetry. apply firstn_skipn.
Qed.

Lemma slice_last_short {A} n (xs : list A) :
  (length xs <= n)%nat -> slice_last n xs = xs.
Proof.
  intros H. unfold slice_last.
  replace (length xs - n)%nat with 0%nat by lia. reflexivity.
Qed.

Lemma tl_skipn {A} n (xs : list A) : tl (skipn n xs) = skipn (S n) xs.
Proof.
  revert xs. induction n as [|n IH]; intros [|x xs]; try reflexivity.
  change (tl (skipn n xs) = skipn (S n) xs). apply IH.
Qed.

(** Appending to a history of [n] or more drops the oldest of the last
    [n]. *)
Lemma slice_last_push {A} n (xs : list A) x :
  (1 <= n <= length xs)%nat ->
  slice_last n (xs ++ [x]) = tl (slice_last n xs) ++ [x].
Proof.
  intros H. unfold slice_last. rewrite tl_skipn, length_app. simpl.
  replace (length xs + 1 - n)%nat with (S (length xs - n)) by lia.
  rewrite skipn_app.
  replace (S (length xs - n) - length xs)%nat with 0%nat by lia.
  reflexivity.
Qed.

Lemma length_replace_nth {A} i (c : A) cs :
  (i < length cs)%nat -> length (replace_nth i c cs) = length cs.
Proof.
  intros H. unfold replace_nth.
  rewrite length_app, length_firstn. cbn [length]. rewrite length_skipn. lia.
Qed.

Section Scheduler.

Variable JSON_parse : string -> option NetworkInsight.
Variable trim : string -> string.

Local Abbreviation step := (step JSON_parse trim).
Local Abbreviation reachable := (reachable JSON_parse trim).
Local Abbreviation probe_done := (probe_done JSON_parse trim).

(** *** The guard of [performTest] *)

Lemma performTest_running st : isTesting st = true -> performTest st = st.
Proof. intros H. unfold performTest. rewrite H. reflexivity. Qed.

Lemma performTest_idle st :
  isTesting st = false ->
  isTesting (performTest st) = true /\
  running (performTest st) = running st ++ [AwaitingProbe (history st)] /\
  flag_calls (performTest st) = flag_calls st ++ [true] /\
  history (performTest st) = history st.
Proof. intros H. unfold performTest. rewrite H. repeat split. Qed.

Lemma one_cycle_performTest st : one_cycle st -> one_cycle (performTest st).
Proof.
  intros [[Ht Hr]|[Ht Hr]].
  - rewrite performTest_running by exact Ht. left. auto.
  - destruct (performTest_idle st Ht) as (H1 & H2 & _).
    left. rewrite H1, H2, Hr. auto.
Qed.

Lemma one_cycle_finish i c st :
  (length (running st) <= 1)%nat ->
  nth_error (running st) i = Some c ->
  one_cycle (finish i st).
Proof.
  intros H Hi. right. split; [reflexivity|].
  unfold finish. cbn [set_running setIsTesting running].
  destruct (running st) as [|c0 [|c1 cs]]; simpl in H; [| |lia].
  - destruct i; discriminate.
  - destruct i as [|i]; [reflexivity|]. destruct i; discriminate.
Qed.

Lemma one_cycle_replace i c st :
  one_cycle st -> (i < length (running st))%nat ->
  one_cycle (set_running (replace_nth i c (running st)) st).
Proof.
  intros [[Ht Hr]|[Ht Hr]] Hi.
  - left. split; [exact Ht|].
    cbn [set_running running]. rewrite length_replace_nth; assumption.
  - rewrite Hr in Hi. simpl in Hi. lia.
Qed.

Lemma one_cycle_length st : one_cycle st -> (length (running st) <= 1)%nat.
Proof. intros [[_ H]|[_ H]]; rewrite H; simpl; lia. Qed.

Lemma one_cycle_probe_done i result now st :
  one_cycle st -> one_cycle (probe_done i result now st).
Proof.
  intros H. unfold App.probe_done.
  destruct (nth_error (running st) i) as [[captured|k]|] eqn:E; try exact H.
  set (st1 := setNextRun _ (setHistory _ st)).
  assert (H1 : one_cycle st1) by exact H.
  assert (E1 : nth_error (running st1) i = Some (AwaitingProbe captured)) by exact E.
  destruct (Nat.leb 1 (length (captured ++ [result]))).
  - destruct (getNetworkInsights JSON_parse trim (captured ++ [result])) as [a|req k].
    + apply (one_cycle_finish i (AwaitingProbe captured)); [|exact E1].
      apply one_cycle_length. exact H1.
    + apply one_cycle_replace; [exact H1|].
      apply nth_error_Some. rewrite E1. discriminate.
  - apply (one_cycle_finish i (AwaitingProbe captured)); [|exact E1].
    apply one_cycle_length. exact H1.
Qed.

Lemma one_cycle_insights_done i response st :
  one_cycle st -> one_cycle (insights_done i response st).
Proof.
  intros H. unfold insights_done.
  destruct (nth_error (running st) i) as [[captured|k]|] eqn:E; try exact H.
  apply (one_cycle_finish i (AwaitingInsights k)); [|exact E].
  apply one_cycle_length. exact H.
Qed.

Lemma one_cycle_tick now st : one_cycle st -> one_cycle (tick now st).
Proof.
  intros H. unfold tick.
  destruct (Z.max 0 (nextRun st - now) <=? 0)%Z.
  - apply one_cycle_performTest. exact H.
  - exact H.
Qed.

Lemma one_cycle_step st e : one_cycle st -> one_cycle (step st e).
Proof.
  intros H. destruct e; cbn [App.step].
  - apply one_cycle_performTest, H.
  - apply one_cycle_tick, H.
  - apply one_cycle_probe_done, H.
  - apply one_cycle_insights_done, H.
Qed.

(** *** The stored history *)

Lemma stored_step st e : stored_last_100 st -> stored_last_100 (step st e).
Proof.
  unfold stored_last_100. intros H. destruct e as [|now|i result now|i response];
    cbn [App.step].
  - unfold performTest. destruct (isTesting st); exact H.
  - unfold tick, performTest. cbn [setTimeLeft isTesting].
    destruct (Z.max 0 (nextRun st - now) <=? 0)%Z; [|exact H].
    destruct (isTesting st); exact H.
  - unfold App.probe_done.
    destruct (nth_error (running st) i) as [[captured|k]|]; try exact H.
    destruct (Nat.leb 1 (length (captured ++ [result])));
      [destruct (getNetworkInsights JSON_parse trim (captured ++ [result]))|];
      reflexivity.
  - unfold insights_done.
    destruct (nth_error (running st) i) as [[captured|k]|]; exact H.
Qed.

Lemma reachable_stored st : reachable st -> stored_last_100 st.
Proof.
  induction 1 as [saved now|st e _ IH]; [reflexivity|].
  apply stored_step, IH.
Qed.

Lemma probe_done_history i result now captured st :
  nth_error (running st) i = Some (AwaitingProbe captured) ->
  history (probe_done i result now st) = history st ++ [result] /\
  nextRun (probe_done i result now st) = (now + TEST_INTERVAL_MS)%Z /\
  stored (probe_done i result now st) = slice_last 100 (history st ++ [result]).
Proof.
  intros E. unfold App.probe_done. rewrite E.
  destruct (Nat.leb 1 (length (captured ++ [result])));
    [destruct (getNetworkInsights JSON_parse trim (captured ++ [result]))|];
    repeat split.
Qed.

Lemma nth_error_replace_nth {A} i (c : A) cs :
  (i < length cs)%nat -> nth_error (replace_nth i c cs) i = Some c.
Proof.
  intros H. unfold replace_nth.
  rewrite nth_error_app2; rewrite length_firstn; [|lia].
  replace (i - Nat.min i (length cs))%nat with 0%nat by lia. reflexivity.
Qed.

Lemma probe_done_awaits i result now captured st :
  nth_error (running st) i = Some (AwaitingProbe captured) ->
  nth_error (running (probe_done i result now st)) i
  = Some (AwaitingInsights (read_response JSON_parse trim)).
Proof.
  intros E. unfold App.probe_done. rewrite E.
  assert (Hlen : Nat.leb 1 (length (captured ++ [result])) = true).
  { apply Nat.leb_le. rewrite length_app. simpl. lia. }
  rewrite Hlen.
  assert (Hne : exists x xs, captured ++ [result] = x :: xs).
  { destruct captured; simpl; eauto. }
  destruct Hne as (x & xs & ->).
  destruct (getNetworkInsights_nonempty JSON_parse trim x xs) as (req & ->).
  cbn [set_running running setNextRun setHistory].
  apply nth_error_replace_nth. apply nth_error_Some. rewrite E. discriminate.
Qed.

Lemma insights_done_state i response k st :
  nth_error (running st) i = Some (AwaitingInsights k) ->
  insights (insights_done i response st) = Some (k response) /\
  history (insights_done i response st) = history st /\
  stored (insights_done i response st) = stored st /\
  isTesting (insights_done i response st) = false.
Proof. intros E. unfold insights_done. rewrite E. repeat split. Qed.

(** C5, as the code has it.  The stored copy of the history never exceeds
    100 entries: it is the last 100 entries of the history, in the order
    they were appended.  Each completed cycle appends its result to the
    history; the copy stored after it is again the last 100 entries, so
    when it already held 100 the oldest of them is dropped.  The history
    in memory itself is not trimmed. *)
Theorem stored_history_bounded (st : State) (Hreach : reachable st) :
  stored st = slice_last 100 (history st) /\
  (length (stored st) <= 100)%nat /\
  (exists older, history st = older ++ stored st) /\
  (forall i captured result now,
     nth_error (running st) i = Some (AwaitingProbe captured) ->
     let st' := step st (ProbeDone i result now) in
     history st' = history st ++ [result] /\
     (length (stored st') <= 100)%nat /\
     (exists older, history st' = older ++ stored st') /\
     (length (stored st) = 100%nat -> stored st' = tl (stored st) ++ [result]) /\
     ((length (history st) < 100)%nat -> stored st' = history st ++ [result])).
Proof.
  pose proof (reachable_stored st Hreach) as Hst. unfold stored_last_100 in Hst.
  split; [exact Hst|].
  split; [rewrite Hst; apply slice_last_length|].
  split; [rewrite Hst; apply slice_last_suffix|].
  intros i captured result now E st'. unfold st'. cbn [App.step].
  destruct (probe_done_history i result now captured st E) as (Hh & _ & Hs).
  rewrite Hh, Hs.
  split; [reflexivity|].
  split; [apply slice_last_length|].
  split; [apply slice_last_suffix|].
  split.
  - intros Hfull. rewrite Hst. apply slice_last_push.
    rewrite Hst in Hfull. unfold slice_last in Hfull.
    rewrite length_skipn in Hfull. lia.
  - intros Hshort. apply slice_last_short. rewrite length_app. simpl. lia.
Qed.

(** C7.  When the collaborator fails (the call is rejected, the response
    has no text, or the text does not parse) the insight function returns
    the fixed triple of status good, with the unable-to-connect summary
    and the generic recommendation, and raises no error; the cycle that
    awaited it shows this triple and ends, and the history and its stored
    copy are as they were. *)
Theorem collaborator_failure_default
    (h : SpeedResult) (t : list SpeedResult) (response : Response)
    (Hfail : collaborator_failed JSON_parse trim response = true) :
  settle (getNetworkInsights JSON_parse trim (h :: t)) response
    = unable_to_connect /\
  status unable_to_connect = good /\
  summary unable_to_connect
    = "Unable to connect to AI analyzer at the moment."%string /\
  recommendations unable_to_connect
    = ["Verify your ISP plan if speeds seem low."%string] /\
  (forall st i captured result now,
     nth_error (running st) i = Some (AwaitingProbe captured) ->
     let st1 := step st (ProbeDone i result now) in
     let st2 := step st1 (InsightsDone i response) in
     insights st2 = Some unable_to_connect /\
     history st2 = history st1 /\
     stored st2 = stored st1 /\
     isTesting st2 = false).
Proof.
  split; [apply read_response_failed, Hfail|].
  repeat (split; [reflexivity|]).
  intros st i captured result now E st1 st2. unfold st2, st1. cbn [App.step].
  pose proof (probe_done_awaits i result now captured st E) as E1.
  destruct (insights_done_state i response _ _ E1) as (Hi & Hh & Hs & Ht).
  rewrite Hi, (read_response_failed _ _ _ Hfail). auto.
Qed.

End Scheduler.

(** The history held by the component is not bounded by 100: mounted on a
    stored history of 100 samples, it holds 101 once the first cycle
    completes, the oldest still among them. *)
Lemma history_exceeds_100 :
  let st := step reject_all no_blanks mounted_full
              (ProbeDone 0 sample 1700000030000) in
  reachable reject_all no_blanks st /\
  length (history mounted_full) = 100%nat /\
  length (history st) = 101%nat /\
  hd_error (history st) = hd_error (history mounted_full).
Proof.
  intros st. split; [apply reachable_step, reachable_mount|].
  assert (E : nth_error (running mounted_full) 0 = Some (AwaitingProbe []))
    by reflexivity.
  destruct (probe_done_history reject_all no_blanks
              0 sample 1700000030000 [] mounted_full E) as (Hh & _).
  unfold st. cbn [step]. rewrite Hh.
  unfold mounted_full. cbn [mount history].
  rewrite length_app, repeat_length. repeat split.
Qed.

Lemma stored_history_bounded_witness :
  reachable reject_all no_blanks mounted_full /\
  length (stored mounted_full) = 100%nat /\
  stored (step reject_all no_blanks mounted_full (ProbeDone 0 sample 1700000030000))
  = tl (stored mounted_full) ++ [sample].
Proof.
  assert (Hreach : reachable reject_all no_blanks mounted_full)
    by apply reachable_mount.
  assert (Hlen : length (stored mounted_full) = 100%nat).
  { unfold mounted_full, mount. cbn [stored].
    rewrite slice_last_short; rewrite repeat_length; [reflexivity | lia]. }
  split; [exact Hreach|]. split; [exact Hlen|].
  destruct (stored_history_bounded reject_all no_blanks mounted_full Hreach)
    as (_ & _ & _ & H).
  destruct (H 0%nat [] sample 1700000030000%Z eq_refl) as (_ & _ & _ & Hfull & _).
  apply Hfull. exact Hlen.
Defined.

Lemma collaborator_failure_default_witness :
  collaborator_failed reject_all no_blanks garbled = true /\
  settle (getNetworkInsights reject_all no_blanks [sample]) garbled
  = unable_to_connect /\
  nth_error (running mounted_full) 0 = Some (AwaitingProbe []) /\
  insights
    (step reject_all no_blanks
       (step reject_all no_blanks mounted_full (ProbeDone 0 sample 1700000030000))
       (InsightsDone 0 garbled))
  = Some unable_to_connect.
Proof.
  split; [reflexivity|].
  destruct (collaborator_failure_default reject_all no_blanks
              sample [] garbled eq_refl) as (H & _ & _ & _ & Hcycle).
  split; [exact H|]. split; [reflexivity|].
  destruct (Hcycle mounted_full 0%nat [] sample 1700000030000%Z eq_refl)
    as (Hi & _).
  exact Hi.
Defined.

End AppFacts.


(* ===================================================================== *)
(** ** The countdown and the display *)
(* ===================================================================== *)

Module DisplayFacts.

Import GeminiService App Display Scenarios AppFacts.

Lemma two_digits_table :
  forallb (fun n =>
             Nat.eqb (String.length
                        ((if (Z.of_nat n <? 10)%Z then "0" else "")
                           ++ Number_toString (Z.of_nat n))%string) 2)
          (seq 0 60) = true.
Proof. vm_compute. reflexivity. Qed.

Lemma two_digits s :
  (0 <= s < 60)%Z ->
  String.length ((if (s <? 10)%Z then "0" else "") ++ Number_toString s)%string
  = 2%nat.
Proof.
  intros Hs. pose proof two_digits_table as H.
  rewrite forallb_forall in H.
  specialize (H (Z.to_nat s)). rewrite Z2Nat.id in H by lia.
  apply Nat.eqb_eq, H, in_seq. lia.
Qed.

Lemma formatTimeRemaining_parts (ms : Z) :
  (0 <= ms < 2 ^ 53)%Z ->
  exists (m s : Z) (ss : string),
    formatTimeRemaining ms = (Number_toString m ++ ":" ++ ss)%string /\
    ss = ((if (s <? 10)%Z then "0" else "") ++ Number_toString s)%string /\
    String.length ss = 2%nat /\
    (0 <= m < 2 ^ 53)%Z /\ (0 <= s < 60)%Z /\
    (m * 60 + s = ms / 1000)%Z.
Proof.
  intros Hms. exists (ms / 60000)%Z, (Z.rem ms 60000 / 1000)%Z.
  eexists. split; [reflexivity|]. split; [reflexivity|].
  rewrite Z.rem_mod_nonneg by lia.
  assert (Hr : (0 <= ms mod 60000 < 60000)%Z) by (apply Z.mod_pos_bound; lia).
  assert (Hs : (0 <= ms mod 60000 / 1000 < 60)%Z).
  { split; [apply Z.div_pos; lia|]. apply Z.div_lt_upper_bound; lia. }
  split; [apply two_digits, Hs|].
  split.
  { split; [apply Z.div_pos; lia|]. apply Z.div_lt_upper_bound; lia. }
  split; [exact Hs|].
  rewrite (Z.div_mod ms 60000) at 3 by lia.
  replace (60000 * (ms / 60000) + ms mod 60000)%Z
    with (ms mod 60000 + (ms / 60000 * 60) * 1000)%Z by lia.
  rewrite Z.div_add by lia. lia.
Qed.

(** X1.  For a whole number of milliseconds from 0 to below [2^53], the
    countdown text is the minutes, a colon and two digits of seconds below
    60, and stands for the whole seconds left. *)
Theorem formatTimeRemaining_shape (ms : Z)
    (Hms : (0 <= ms < 2 ^ 53)%Z) :
  exists (m s : Z) (ss : string),
    formatTimeRemaining ms = (Number_toString m ++ ":" ++ ss)%string /\
    ss = ((if (s <? 10)%Z then "0" else "") ++ Number_toString s)%string /\
    String.length ss = 2%nat /\
    (0 <= m < 2 ^ 53)%Z /\ (0 <= s < 60)%Z /\
    (m * 60 + s = ms / 1000)%Z.
Proof. apply formatTimeRemaining_parts, Hms. Qed.

Lemma formatTimeRemaining_shape_witness :
  (0 <= 599999 < 2 ^ 53)%Z /\
  exists (m s : Z) (ss : string),
    formatTimeRemaining 599999 = (Number_toString m ++ ":" ++ ss)%string /\
    String.length ss = 2%nat /\ (m * 60 + s = 599)%Z.
Proof.
  assert (H : (0 <= 599999 < 2 ^ 53)%Z).
  { vm_compute. split; [discriminate | reflexivity]. }
  split; [exact H|].
  destruct (formatTimeRemaining_shape 599999 H)
    as (m & s & ss & E & _ & Hlen & _ & _ & Hsum).
  exists m, s, ss. split; [exact E|]. split; [exact Hlen|]. exact Hsum.
Defined.

(** *** The list of recent tests and the cards *)

Lemma slice_last_min {A} n (xs : list A) :
  length (slice_last n xs) = Nat.min n (length xs).
Proof. unfold slice_last. rewrite length_skipn. lia. Qed.

Lemma currentResult_push h r : currentResult (h ++ [r]) = Some r.
Proof.
  unfold currentResult. rewrite length_app. cbn [length].
  replace (Nat.eqb (length h + 1) 0) with false
    by (symmetry; apply Nat.eqb_neq; lia).
  rewrite nth_error_app2 by lia.
  replace (length h + 1 - 1 - length h)%nat with 0%nat by lia. reflexivity.
Qed.

Lemma currentResult_last h :
  currentResult h = hd_error (rev h).
Proof.
  destruct h as [|x xs] using rev_ind; [reflexivity|].
  rewrite currentResult_push, rev_unit. reflexivity.
Qed.

(** X2.  The list of recent tests is the last ten samples of the history,
    newest first: it has ten rows at most, and its first row is the sample
    the cards show. *)
Theorem recentTests_newest_first (h : list SpeedResult) :
  recentTests h = rev (slice_last 10 h) /\
  length (recentTests h) = Nat.min 10 (length h) /\
  hd_error (recentTests h) = currentResult h /\
  (forall r, recentTests (h ++ [r]) = r :: firstn 9 (recentTests h)).
Proof.
  unfold recentTests.
  split; [apply firstn_rev|].
  split; [rewrite length_firstn, length_rev; reflexivity|].
  split.
  - rewrite currentResult_last. destruct (rev h); reflexivity.
  - intros r. rewrite rev_unit.
    change (firstn 10 (r :: rev h)) with (r :: firstn 9 (rev h)).
    rewrite firstn_firstn. reflexivity.
Qed.

Lemma truthy_compat a b : num_eq a b -> truthy a = truthy b.
Proof.
  destruct a, b; simpl; auto; try contradiction.
  intros H. rewrite (JsNumberFacts.Qeq_bool_compat q q0 0 H). reflexivity.
Qed.

Lemma download_zero_when_all_fail (env : SpeedTest.Env) :
  (forall i, (i < 3)%nat ->
     SpeedTest.download_failed (SpeedTest.download_fetch env i) = true) ->
  num_eq (download (SpeedTest.runSpeedTest env)) (Fin 0).
Proof.
  intros Hall. cbn [SpeedTest.runSpeedTest download].
  unfold SpeedTest.avgDownload. rewrite SpeedTestFacts.downloadSpeeds_three.
  rewrite !SpeedTestFacts.download_sample_failed by (apply Hall; lia).
  vm_compute. reflexivity.
Qed.

(** X3.  A cycle whose three downloads all failed is recorded with a download
    of 0, and the Download card then shows the dashes of an empty history
    rather than 0, while the sample heads the list of recent tests. *)
Theorem card_dashes_for_zero_download (h : list SpeedResult) (env : SpeedTest.Env)
    (Hfail : forall i, (i < 3)%nat ->
       SpeedTest.download_failed (SpeedTest.download_fetch env i) = true) :
  let r := SpeedTest.runSpeedTest env in
  currentResult (h ++ [r]) = Some r /\
  card_value download (currentResult (h ++ [r])) = Dashes /\
  card_value download (currentResult (h ++ [r])) = card_value download (currentResult []) /\
  hd_error (recentTests (h ++ [r])) = Some r.
Proof.
  intros r. subst r. set (r := SpeedTest.runSpeedTest env).
  assert (Hzero : num_eq (download r) (Fin 0))
    by apply (download_zero_when_all_fail env Hfail).
  assert (Hcard : card_value download (currentResult (h ++ [r])) = Dashes).
  { rewrite currentResult_push. unfold card_value.
    rewrite (truthy_compat _ _ Hzero). reflexivity. }
  split; [apply currentResult_push|].
  split; [exact Hcard|]. split; [rewrite Hcard; reflexivity|].
  unfold recentTests. rewrite rev_unit. reflexivity.
Qed.

Lemma card_dashes_for_zero_download_witness :
  (forall i, (i < 3)%nat ->
     SpeedTest.download_failed (SpeedTest.download_fetch no_download i) = true) /\
  card_value download (currentResult [sample; SpeedTest.runSpeedTest no_download])
  = Dashes.
Proof.
  assert (H : forall i, (i < 3)%nat ->
     SpeedTest.download_failed (SpeedTest.download_fetch no_download i) = true).
  { intros i _. reflexivity. }
  split; [exact H|].
  destruct (card_dashes_for_zero_download [sample] no_download H) as (_ & Hd & _).
  exact Hd.
Defined.

End DisplayFacts.

(* ===================================================================== *)
(** ** The scheduler, cycle by cycle *)
(* ===================================================================== *)

Module SchedulerFacts.

Import GeminiService App Display Scenarios GeminiServiceFacts AppFacts DisplayFacts.



Section Scheduler.

Variable JSON_parse : string -> option NetworkInsight.
Variable trim : string -> string.

Local Abbreviation step := (step JSON_parse trim).
Local Abbreviation reachable := (reachable JSON_parse trim).
Local Abbreviation probe_done := (probe_done JSON_parse trim).
Local Abbreviation insight_request := (insight_request JSON_parse trim).

Lemma nth_error_last {A} (h : list A) r :
  nth_error (h ++ [r]) (length (h ++ [r]) - 1) = Some r.
Proof.
  rewrite length_app. cbn [length]. rewrite nth_error_app2 by lia.
  replace (length h + 1 - 1 - length h)%nat with 0%nat by lia. reflexivity.
Qed.

Lemma getNetworkInsights_push h r :
  getNetworkInsights JSON_parse trim (h ++ [r])
  = Await {| prompt_history := slice_last 20 (h ++ [r]);
             prompt_current := Some r |}
          (read_response JSON_parse trim).
Proof.
  unfold getNetworkInsights.
  replace (Nat.eqb (length (h ++ [r])) 0) with false
    by (symmetry; apply Nat.eqb_neq; rewrite length_app; simpl; lia).
  rewrite nth_error_last. reflexivity.
Qed.

Lemma insight_request_awaiting i result captured st :
  nth_error (running st) i = Some (AwaitingProbe captured) ->
  insight_request i result st
  = Some {| prompt_history := slice_last 20 (captured ++ [result]);
            prompt_current := Some result |}.
Proof.
  intros E. unfold Display.insight_request. rewrite E.
  replace (Nat.leb 1 (length (captured ++ [result]))) with true
    by (symmetry; apply Nat.leb_le; rewrite length_app; simpl; lia).
  rewrite getNetworkInsights_push. reflexivity.
Qed.

(** X5.  From an idle state, a manual trigger, the result of the probe and
    the collaborator's response make one cycle: the history gains exactly the
    new sample and its last 100 entries are stored, the next run is set ten
    minutes after the probe completed, the insight shown is what the response
    reads as, the flag goes up and down once, no cycle is left running, and
    the request carried the last 20 samples of the extended history with the
    new sample as the current one. *)
Theorem one_full_cycle (st : State) (result : SpeedResult) (now : Z)
    (response : Response)
    (Hidle : isTesting st = false) (Hnone : running st = []) :
  let st1 := step st RunNow in
  let st2 := step st1 (ProbeDone 0 result now) in
  let st3 := step st2 (InsightsDone 0 response) in
  (isTesting st1 = true /\ history st1 = history st) /\
  (isTesting st2 = true /\ history st2 = history st ++ [result] /\
   nextRun st2 = (now + 600000)%Z /\ insights st2 = insights st) /\
  history st3 = history st ++ [result] /\
  stored st3 = slice_last 100 (history st ++ [result]) /\
  nextRun st3 = (now + 600000)%Z /\
  insights st3 = Some (read_response JSON_parse trim response) /\
  isTesting st3 = false /\ running st3 = [] /\
  flag_calls st3 = flag_calls st ++ [true; false] /\
  insight_request 0 result st1
  = Some {| prompt_history := slice_last 20 (history st ++ [result]);
            prompt_current := Some result |}.
Proof.
  intros st1 st2 st3.
  assert (E1 : st1 = set_running [AwaitingProbe (history st)] (setIsTesting true st)).
  { unfold st1. cbn [App.step]. unfold performTest. rewrite Hidle.
    cbn [setIsTesting running history]. rewrite Hnone. reflexivity. }
  assert (E2 : st2 = set_running [AwaitingInsights (read_response JSON_parse trim)]
                       (setNextRun (now + TEST_INTERVAL_MS)
                          (setHistory (history st ++ [result]) st1))).
  { unfold st2. cbn [App.step]. unfold App.probe_done. rewrite E1.
    cbn [set_running setIsTesting running history nth_error].
    replace (Nat.leb 1 (length (history st ++ [result]))) with true
      by (symmetry; apply Nat.leb_le; rewrite length_app; simpl; lia).
    rewrite getNetworkInsights_push. reflexivity. }
  assert (E3 : st3 = finish 0 (setInsights (read_response JSON_parse trim response) st2)).
  { unfold st3. cbn [App.step]. unfold insights_done. rewrite E2. reflexivity. }
  split; [rewrite E1; split; reflexivity|].
  split; [rewrite E2, E1; repeat split|].
  rewrite E3, E2, E1.
  repeat (split; [reflexivity|]).
  split.
  { cbn [finish set_running setIsTesting setInsights setNextRun setHistory flag_calls].
    rewrite <- app_assoc. reflexivity. }
  apply insight_request_awaiting. reflexivity.
Qed.

(** *** The calls of the flag setter *)

Lemma flag_pattern_start n : flag_pattern n false ++ [true] = flag_pattern n true.
Proof. induction n as [|n IH]; simpl; [reflexivity|]. rewrite IH. reflexivity. Qed.

Lemma flag_pattern_finish n :
  flag_pattern n true ++ [false] = flag_pattern (S n) false.
Proof.
  induction n as [|n IH]; [reflexivity|].
  change (true :: false :: (flag_pattern n true ++ [false])
          = true :: false :: flag_pattern (S n) false).
  rewrite IH. reflexivity.
Qed.

Lemma flags_ok_performTest st : flags_ok st -> flags_ok (performTest st).
Proof.
  intros [n H]. unfold performTest. destruct (isTesting st) eqn:E.
  - exists n. rewrite E. exact H.
  - exists n. cbn [set_running setIsTesting flag_calls isTesting].
    rewrite H. apply flag_pattern_start.
Qed.

Lemma flags_ok_finish i st :
  isTesting st = true -> flags_ok st -> flags_ok (finish i st).
Proof.
  intros E [n H]. exists (S n).
  cbn [finish set_running setIsTesting flag_calls isTesting].
  rewrite H, E. apply flag_pattern_finish.
Qed.

Lemma running_busy i c st :
  one_cycle st -> nth_error (running st) i = Some c ->
  isTesting st = true /\ i = 0%nat /\ running st = [c].
Proof.
  intros [[Ht Hr]|[Ht Hr]] E.
  - destruct (running st) as [|c0 [|c1 cs]]; try discriminate.
    destruct i as [|i]; [|destruct i; discriminate].
    injection E as ->. auto.
  - rewrite Hr in E. destruct i; discriminate.
Qed.

Lemma flags_ok_step st e : one_cycle st -> flags_ok st -> flags_ok (step st e).
Proof.
  intros Hone H. destruct e as [|now|i result now|i response]; cbn [App.step].
  - apply flags_ok_performTest, H.
  - unfold tick. destruct (Z.max 0 (nextRun st - now) <=? 0)%Z.
    + apply flags_ok_performTest. exact H.
    + exact H.
  - unfold App.probe_done.
    destruct (nth_error (running st) i) as [[captured|k]|] eqn:E; try exact H.
    destruct (running_busy _ _ _ Hone E) as (Ht & _ & _).
    destruct (Nat.leb 1 (length (captured ++ [result])));
      [destruct (getNetworkInsights JSON_parse trim (captured ++ [result]))|].
    + apply flags_ok_finish; [exact Ht | exact H].
    + exact H.
    + apply flags_ok_finish; [exact Ht | exact H].
  - unfold insights_done.
    destruct (nth_error (running st) i) as [[captured|k]|] eqn:E; try exact H.
    destruct (running_busy _ _ _ Hone E) as (Ht & _ & _).
    apply flags_ok_finish; [exact Ht | exact H].
Qed.

(** *** What the collaborator is sent *)

Lemma captured_ok_step st e :
  one_cycle st -> captured_ok st -> captured_ok (step st e).
Proof.
  intros Hone H. destruct e as [|now|i result now|i response]; cbn [App.step].
  - unfold performTest. destruct (isTesting st) eqn:Ht; [exact H|].
    destruct Hone as [[Ht' _]|[_ Hr]]; [congruence|].
    intros j c. cbn [set_running setIsTesting running history]. rewrite Hr.
    destruct j as [|j]; [|destruct j; discriminate].
    intros E. injection E as <-. left. reflexivity.
  - unfold tick. destruct (Z.max 0 (nextRun st - now) <=? 0)%Z; [|exact H].
    unfold performTest. cbn [setTimeLeft isTesting].
    destruct (isTesting st) eqn:Ht; [exact H|].
    destruct Hone as [[Ht' _]|[_ Hr]]; [congruence|].
    intros j c. cbn [set_running setIsTesting setTimeLeft running history].
    rewrite Hr.
    destruct j as [|j]; [|destruct j; discriminate].
    intros E. injection E as <-. left. reflexivity.
  - unfold App.probe_done.
    destruct (nth_error (running st) i) as [[captured|k]|] eqn:E; try exact H.
    destruct (running_busy _ _ _ Hone E) as (_ & -> & Hr).
    intros j c.
    destruct (Nat.leb 1 (length (captured ++ [result])));
      [destruct (getNetworkInsights JSON_parse trim (captured ++ [result]))|];
      cbn [finish set_running setIsTesting setInsights setNextRun setHistory running];
      rewrite Hr; unfold remove_nth, replace_nth; cbn [firstn skipn app];
      destruct j as [|j]; try discriminate; destruct j; discriminate.
  - unfold insights_done.
    destruct (nth_error (running st) i) as [[captured|k]|] eqn:E; try exact H.
    destruct (running_busy _ _ _ Hone E) as (_ & -> & Hr).
    intros j c.
    cbn [finish set_running setIsTesting setInsights running].
    rewrite Hr. unfold remove_nth. cbn [firstn skipn app].
    destruct j; discriminate.
Qed.

(** X8.  Mounted on a stored history, the first cycle is started by the
    closure of the first render: its request to the collaborator carries the
    new sample alone, although the history it is appended to begins with the
    stored samples. *)
Theorem first_request_ignores_stored (saved : list SpeedResult) (now now' : Z)
    (result : SpeedResult) :
  insight_request 0 result (mount saved now)
  = Some {| prompt_history := [result]; prompt_current := Some result |} /\
  history (step (mount saved now) (ProbeDone 0 result now')) = saved ++ [result].
Proof.
  split.
  - rewrite (insight_request_awaiting 0 result [] (mount saved now)); reflexivity.
  - destruct (probe_done_history JSON_parse trim 0 result now' [] (mount saved now))
      as (H & _); [reflexivity|]. exact H.
Qed.

(** X9.  The prompt of a non-empty history holds its last 20 samples, in
    order, ending with the sample it names as current; and a reply whose
    trimmed text parses is returned as parsed. *)
Theorem prompt_of_history (h : SpeedResult) (t : list SpeedResult) :
  exists request,
    getNetworkInsights JSON_parse trim (h :: t)
    = Await request (read_response JSON_parse trim) /\
    prompt_history request = slice_last 20 (h :: t) /\
    length (prompt_history request) = Nat.min 20 (length (h :: t)) /\
    (exists older, h :: t = older ++ prompt_history request) /\
    prompt_current request = Some (last t h) /\
    hd_error (rev (prompt_history request)) = prompt_current request /\
    (forall c text insight,
       JSON_parse (trim (String c text)) = Some insight ->
       settle (getNetworkInsights JSON_parse trim (h :: t))
              (Resolved (Some (String c text))) = insight).
Proof.
  assert (Hpush : exists l r, h :: t = l ++ [r] /\ last t h = r).
  { destruct (exists_last (l := h :: t)) as (l & r & E); [discriminate|].
    exists l, r. split; [exact E|].
    assert (Hl : last t h = last (h :: t) h) by (destruct t; reflexivity).
    rewrite Hl, E. apply last_last. }
  destruct Hpush as (l & r & E & Hlast).
  rewrite E, Hlast. rewrite getNetworkInsights_push.
  eexists. split; [reflexivity|]. cbn [prompt_history prompt_current].
  split; [reflexivity|]. split; [apply slice_last_min|].
  split; [apply slice_last_suffix|]. split; [reflexivity|].
  split.
  - unfold slice_last. rewrite <- firstn_rev, rev_unit. reflexivity.
  - intros c text insight Hp. cbn [settle read_response]. rewrite Hp. reflexivity.
Qed.

(** *** The history *)

(** X11.  The history in memory is only ever appended to: the result of a
    probe delivered to the cycle that awaits it adds that one sample and
    sets the next run ten minutes later; every other event, a result
    delivered to no waiting cycle included, leaves the history, its stored
    copy and the next run as they are. *)
Theorem history_append_only (st : State) (e : Event) :
  (history (step st e) = history st /\
   stored (step st e) = stored st /\
   nextRun (step st e) = nextRun st) \/
  (exists i captured result now,
     e = ProbeDone i result now /\
     nth_error (running st) i = Some (AwaitingProbe captured) /\
     history (step st e) = history st ++ [result] /\
     stored (step st e) = slice_last 100 (history st ++ [result]) /\
     nextRun (step st e) = (now + 600000)%Z).
Proof.
  destruct e as [|now|i result now|i response]; cbn [App.step].
  - left. unfold performTest. destruct (isTesting st); repeat split.
  - left. unfold tick, performTest. cbn [setTimeLeft isTesting].
    destruct (Z.max 0 (nextRun st - now) <=? 0)%Z; [|repeat split].
    destruct (isTesting st); repeat split.
  - destruct (nth_error (running st) i) as [[captured|k]|] eqn:E.
    + right. exists i, captured, result, now.
      split; [reflexivity|]. split; [exact E|].
      destruct (probe_done_history JSON_parse trim i result now captured st E)
        as (H1 & H2 & H3).
      auto.
    + left. unfold App.probe_done. rewrite E. repeat split.
    + left. unfold App.probe_done. rewrite E. repeat split.
  - left. unfold insights_done.
    destruct (nth_error (running st) i) as [[captured|k]|]; repeat split.
Qed.

End Scheduler.

Lemma settled_idle : isTesting settled = false /\ running settled = [].
Proof. split; reflexivity. Qed.

Lemma one_full_cycle_witness :
  isTesting settled = false /\ running settled = [] /\
  length (history (step reject_all no_blanks
                     (step reject_all no_blanks
                        (step reject_all no_blanks settled RunNow)
                        (ProbeDone 0 sample 1700000660000))
                     (InsightsDone 0 garbled))) = 102%nat.
Proof.
  destruct settled_idle as [Hi Hn].
  split; [exact Hi|]. split; [exact Hn|].
  destruct (one_full_cycle reject_all no_blanks settled sample 1700000660000
              garbled Hi Hn) as (_ & _ & H & _).
  rewrite H. rewrite length_app. reflexivity.
Defined.

Lemma prompt_of_history_witness :
  (fun _ : string => Some insufficient_data) (no_blanks "{}"%string)
  = Some insufficient_data /\
  settle (getNetworkInsights (fun _ => Some insufficient_data) no_blanks [sample])
         (Resolved (Some "{}"%string))
  = insufficient_data.
Proof.
  split; [reflexivity|].
  destruct (prompt_of_history (fun _ => Some insufficient_data) no_blanks sample [])
    as (request & _ & _ & _ & _ & _ & _ & H).
  apply H. reflexivity.
Defined.

End SchedulerFacts.

(* ===================================================================== *)
(** ** The probe engine, beyond the averages *)
(* ===================================================================== *)

Module ProbeFacts.

Import SpeedTest Spec Scenarios JsNumberFacts SampleFacts SpeedTestFacts.

(** X12.  When the clock is monotonic and advanced during every transfer that
    was timed, the sample is complete: its five fields are finite and none is
    below zero. *)
Theorem sample_finite_when_timed (env : Env)
    (Hl : forall i, wf_latency (latency_fetch env i))
    (Hd : forall i, timed_download (download_fetch env i))
    (Hu : forall i, timed_upload (upload_fetch env i)) :
  let r := runSpeedTest env in
  isFinite (timestamp r) = true /\
  nonneg (download r) /\ nonneg (upload r) /\
  nonneg (latency r) /\ nonneg (jitter r).
Proof. apply runSpeedTest_sample_finite; assumption. Qed.

Lemma flaky_timed :
  (forall i, wf_latency (latency_fetch flaky i)) /\
  (forall i, timed_download (download_fetch flaky i)) /\
  (forall i, timed_upload (upload_fetch flaky i)).
Proof.
  split; [|split].
  - intros [|[|[|i]]]; unfold wf_latency; simpl;
      repeat split; unfold Qle, Qlt; simpl; lia.
  - intros i. unfold timed_download; simpl. unfold Qlt; simpl; lia.
  - intros [|i]; unfold timed_upload; simpl; [unfold Qlt; simpl; lia | exact I].
Qed.

Lemma sample_finite_when_timed_witness :
  (forall i, wf_latency (latency_fetch flaky i)) /\
  (forall i, timed_download (download_fetch flaky i)) /\
  (forall i, timed_upload (upload_fetch flaky i)) /\
  nonneg (download sample) /\ nonneg (upload sample).
Proof.
  destruct flaky_timed as (Hl & Hd & Hu).
  split; [exact Hl|]. split; [exact Hd|]. split; [exact Hu|].
  destruct (sample_finite_when_timed flaky Hl Hd Hu) as (_ & H1 & H2 & _).
  split; assumption.
Defined.

Lemma isFinite_compat a b : num_eq a b -> isFinite a = isFinite b.
Proof. destruct a, b; simpl; auto; contradiction. Qed.

(** X13.  Whatever the network does, the latency and the jitter of the
    sample are finite numbers and the timestamp is the clock reading at the
    end of the cycle; the jitter is never below zero. *)
Theorem latency_jitter_always_finite (env : Env) :
  isFinite (latency (runSpeedTest env)) = true /\
  isFinite (jitter (runSpeedTest env)) = true /\
  nonneg (jitter (runSpeedTest env)) /\
  timestamp (runSpeedTest env) = of_Z (Date_now env).
Proof.
  cbn [runSpeedTest latency jitter timestamp].
  split.
  { rewrite toFixed_isFinite.
    rewrite (isFinite_compat _ _ (avgLatency_mean env)). reflexivity. }
  pose proof (toFixed_nonneg 1 _ (jitter_nonneg env)) as Hj.
  split; [apply nonneg_isFinite, Hj|]. split; [exact Hj | reflexivity].
Qed.

(** *** Rounding keeps bounds *)

Lemma nearest_decimal_mono d x y :
  x <= y -> nearest_decimal d x <= nearest_decimal d y.
Proof.
  intros H. pose proof (pow10_pos d) as Hp. unfold nearest_decimal, Qdiv.
  apply Qmult_le_compat_r.
  - rewrite <- Zle_Qle. apply Qfloor_resp_le. nra.
  - apply Qinv_le_0_compat. lra.
Qed.

Lemma toFixed_between d lo hi q :
  0 <= lo -> hi < pow10 21 ->
  nearest_decimal d lo == lo -> nearest_decimal d hi == hi ->
  lo <= q -> q <= hi ->
  between lo hi (toFixed d (Fin q)).
Proof.
  intros Hlo Hhi Flo Fhi H1 H2. unfold toFixed.
  assert (Habs : Qle_bool (pow10 21) (Qabs q) = false).
  { destruct (Qle_bool (pow10 21) (Qabs q)) eqn:E; [|reflexivity].
    apply Qle_bool_iff in E. rewrite Qabs_pos in E by lra. lra. }
  assert (Hpos : Qle_bool 0 q = true) by (apply Qle_bool_iff; lra).
  rewrite Habs, Hpos. exists (nearest_decimal d q). split; [reflexivity|].
  pose proof (nearest_decimal_mono d lo q H1).
  pose proof (nearest_decimal_mono d q hi H2).
  split; lra.
Qed.

Lemma latency_values_five env :
  latency_values env =
    [latency_value (latency_fetch env 0); latency_value (latency_fetch env 1);
     latency_value (latency_fetch env 2); latency_value (latency_fetch env 3);
     latency_value (latency_fetch env 4)].
Proof. reflexivity. Qed.

(** X14.  When all five latency probes fail, the sample reports a latency
    between 20 and 30 ms and a jitter between 0 and 10 ms. *)
Theorem synthetic_latency_bounds (env : Env)
    (Hwf : forall i, wf_latency (latency_fetch env i))
    (Hfail : forall i, (i < 5)%nat ->
       exists r, probe_outcome (latency_fetch env i) = ProbeRejected r) :
  between 20 30 (latency (runSpeedTest env)) /\
  between 0 10 (jitter (runSpeedTest env)).
Proof.
  assert (Hv : forall i, (i < 5)%nat ->
            20 <= latency_value (latency_fetch env i) /\
            latency_value (latency_fetch env i) <= 30).
  { intros i Hi. pose proof (latency_value_ok _ (Hwf i)) as Hok.
    destruct (Hfail i Hi) as [r Hr]. unfold latency_sample_ok in Hok.
    rewrite Hr in Hok. exact Hok. }
  assert (Hall : Forall (fun q => 20 <= q /\ q <= 30) (latency_values env)).
  { rewrite latency_values_five. repeat constructor; apply Hv; lia. }
  cbn [runSpeedTest latency jitter]. split.
  - pose proof (avgLatency_mean env) as Hm.
    destruct (avgLatency env) as [| | |p]; try contradiction. simpl in Hm.
    apply toFixed_between; try reflexivity;
      [unfold Qle; simpl; lia | | ];
      rewrite Hm; unfold mean; rewrite latency_values_five;
      cbn [length Qsum fold_right];
      destruct (Hv 0%nat ltac:(lia)), (Hv 1%nat ltac:(lia)), (Hv 2%nat ltac:(lia)),
               (Hv 3%nat ltac:(lia)), (Hv 4%nat ltac:(lia)).
    + apply Qle_shift_div_l; [reflexivity|].
      change (inject_Z (Z.of_nat 5)) with 5. lra.
    + apply Qle_shift_div_r; [reflexivity|].
      change (inject_Z (Z.of_nat 5)) with 5. lra.
  - destruct (jitter_range env) as (hi & lo & [Hin Hmax] & [Hin' Hmin] & ->).
    rewrite Forall_forall in Hall, Hmin.
    pose proof (Hall hi Hin) as [? ?]. pose proof (Hall lo Hin') as [? ?].
    pose proof (Hmin hi Hin).
    apply toFixed_between; try reflexivity; lra.
Qed.

Lemma synthetic_latency_bounds_witness :
  (forall i, wf_latency (latency_fetch (outage (fun _ => 1 # 3) 5) i)) /\
  (forall i, (i < 5)%nat ->
     exists r, probe_outcome (latency_fetch (outage (fun _ => 1 # 3) 5) i)
               = ProbeRejected r) /\
  between 20 30 (latency (runSpeedTest (outage (fun _ => 1 # 3) 5))).
Proof.
  assert (Hwf : forall i, wf_latency (latency_fetch (outage (fun _ => 1 # 3) 5) i)).
  { intros i. unfold wf_latency; simpl. split; [unfold Qle | unfold Qlt]; simpl; lia. }
  assert (Hfail : forall i, (i < 5)%nat ->
     exists r, probe_outcome (latency_fetch (outage (fun _ => 1 # 3) 5) i)
               = ProbeRejected r).
  { intros i _. exists (1 # 3). reflexivity. }
  split; [exact Hwf|]. split; [exact Hfail|].
  destruct (synthetic_latency_bounds _ Hwf Hfail) as [H _]. exact H.
Defined.

(** *** Upload and download *)

Lemma upload_sample_succeeded avg avg' a :
  upload_failed a = false -> upload_sample avg a = upload_sample avg' a.
Proof.
  unfold upload_failed, upload_sample.
  destruct (upload_outcome a) as [[|] finish|]; [reflexivity | discriminate..].
Qed.

Lemma estimate_twice (x : number) :
  num_eq (div (add (add (Fin 0) (mul x (Fin (4 # 10)))) (mul x (Fin (4 # 10))))
              (of_nat 2))
         (mul x (Fin (4 # 10))).
Proof.
  destruct x as [| | |q]; try reflexivity.
  cbn [mul add]. unfold of_nat, of_Z. rewrite div_Fin by nonzero.
  change ((0 + q * (4 # 10) + q * (4 # 10)) / inject_Z (Z.of_nat 2)
          == q * (4 # 10)).
  change (inject_Z (Z.of_nat 2)) with 2. field.
Qed.

(** X15.  When both uploads succeed the upload average is measured on its
    own and does not depend on the downloads; when both fail it is the
    estimate itself, 0.4 times the download average. *)
Theorem upload_against_download (env : Env) :
  (upload_failed (upload_fetch env 0) = false ->
   upload_failed (upload_fetch env 1) = false ->
   forall env',
     (forall i, upload_fetch env' i = upload_fetch env i) ->
     avgUpload env' = avgUpload env /\
     upload (runSpeedTest env') = upload (runSpeedTest env)) /\
  (upload_failed (upload_fetch env 0) = true ->
   upload_failed (upload_fetch env 1) = true ->
   num_eq (avgUpload env) (mul (avgDownload env) (Fin (4 # 10))) /\
   num_eq (upload (runSpeedTest env))
          (toFixed 2 (mul (avgDownload env) (Fin (4 # 10))))).
Proof.
  split.
  - intros H0 H1 env' Hsame.
    assert (E : avgUpload env' = avgUpload env).
    { unfold avgUpload. rewrite !uploadSpeeds_two, !Hsame.
      rewrite (upload_sample_succeeded (avgDownload env') (avgDownload env) _ H0).
      rewrite (upload_sample_succeeded (avgDownload env') (avgDownload env) _ H1).
      reflexivity. }
    split; [exact E|]. cbn [runSpeedTest upload]. rewrite E. reflexivity.
  - intros H0 H1.
    assert (E : num_eq (avgUpload env) (mul (avgDownload env) (Fin (4 # 10)))).
    { unfold avgUpload. rewrite uploadSpeeds_two.
      rewrite !upload_sample_failed by assumption.
      apply estimate_twice. }
    split; [exact E|]. cbn [runSpeedTest upload]. apply toFixed_compat, E.
Qed.

Lemma upload_against_download_witness :
  upload_failed (upload_fetch one_success 0) = false /\
  upload_failed (upload_fetch one_success 1) = false /\
  avgUpload no_download = avgUpload one_success /\
  upload_failed (upload_fetch (outage (fun _ => 1 # 3) 5) 0) = true /\
  upload_failed (upload_fetch (outage (fun _ => 1 # 3) 5) 1) = true /\
  num_eq (avgUpload (outage (fun _ => 1 # 3) 5))
         (mul (avgDownload (outage (fun _ => 1 # 3) 5)) (Fin (4 # 10))).
Proof.
  destruct (upload_against_download one_success) as [Hok _].
  destruct (upload_against_download (outage (fun _ => 1 # 3) 5)) as [_ Hko].
  split; [reflexivity|]. split; [reflexivity|].
  split; [apply (Hok eq_refl eq_refl no_download); intros i; reflexivity|].
  split; [reflexivity|]. split; [reflexivity|].
  apply (Hko eq_refl eq_refl).
Defined.

(** *** A download within one reading of the clock *)

Lemma div_PInf_of_nat n : div PInf (of_nat n) = PInf.
Proof.
  unfold of_nat, of_Z. cbn [div].
  replace (Qle_bool 0 (inject_Z (Z.of_nat n))) with true; [reflexivity|].
  symmetry. apply Qle_bool_iff. change 0 with (inject_Z 0).
  rewrite <- Zle_Qle. lia.
Qed.

Lemma add_PInf_l x : x = PInf \/ nonneg x -> add PInf x = PInf.
Proof.
  intros [->|H]; [reflexivity|].
  destruct (nonneg_Fin_inv x H) as (q & -> & _). reflexivity.
Qed.

Lemma add_PInf_r x : x = PInf \/ nonneg x -> add x PInf = PInf.
Proof.
  intros [->|H]; [reflexivity|].
  destruct (nonneg_Fin_inv x H) as (q & -> & _). reflexivity.
Qed.

Lemma fold_add_infinite xs :
  Forall (fun x => x = PInf \/ nonneg x) xs ->
  forall acc, (acc = PInf \/ nonneg acc) -> (acc = PInf \/ In PInf xs) ->
              fold_left add xs acc = PInf.
Proof.
  induction 1 as [|x xs Hx _ IH]; intros acc Hacc Hor.
  - destruct Hor as [->|[]]. reflexivity.
  - cbn [fold_left]. apply IH.
    + destruct Hacc as [->|Hacc]; [left; apply add_PInf_l, Hx|].
      destruct Hx as [->|Hx]; [left; apply add_PInf_r; right; exact Hacc|].
      right. apply nonneg_add; assumption.
    + destruct Hor as [->|[->|Hin]].
      * left. apply add_PInf_l, Hx.
      * left. apply add_PInf_r, Hacc.
      * right. exact Hin.
Qed.

Lemma average_with_infinite xs :
  In PInf xs -> Forall (fun x => x = PInf \/ nonneg x) xs ->
  average_download xs = PInf.
Proof.
  intros Hin Hall. unfold average_download, sum.
  rewrite (fold_add_infinite xs Hall);
    [apply div_PInf_of_nat | right; simpl; lra | right; exact Hin].
Qed.

(** X18.  A download whose body of at least one byte arrives within one
    reading of the clock is recorded as an infinite throughput, and when the
    clock advanced during the other downloads that one sample makes the
    reported download infinite. *)
Theorem download_within_one_reading (env : Env) (k : nat) (start : Q) (size : N)
    (Hk : (k < 3)%nat) (Hsize : (0 < size)%N)
    (Hsame : download_fetch env k
             = {| download_start := start;
                  download_outcome := BodyReceived size start |})
    (Hothers : forall i, i <> k -> timed_download (download_fetch env i)) :
  download_sample (download_fetch env k) = PInf /\
  avgDownload env = PInf /\
  download (runSpeedTest env) = PInf /\
  isFinite (download (runSpeedTest env)) = false.
Proof.
  assert (Hinf : download_sample (download_fetch env k) = PInf).
  { rewrite Hsame. apply download_sample_same_tick, Hsize. }
  assert (Havg : avgDownload env = PInf).
  { unfold avgDownload. apply average_with_infinite.
    - rewrite downloadSpeeds_three.
      destruct k as [|[|[|k]]]; [| | |lia]; rewrite <- Hinf; simpl; auto.
    - rewrite downloadSpeeds_three.
      assert (Hcase : forall i,
                download_sample (download_fetch env i) = PInf \/
                nonneg (download_sample (download_fetch env i))).
      { intros i. destruct (Nat.eq_dec i k) as [->|Hne];
          [left; exact Hinf | right; apply download_sample_nonneg, Hothers, Hne]. }
      constructor; [apply Hcase|]. constructor; [apply Hcase|].
      constructor; [apply Hcase|]. constructor. }
  split; [exact Hinf|]. split; [exact Havg|].
  cbn [runSpeedTest download]. rewrite Havg. split; reflexivity.
Qed.

Lemma download_within_one_reading_witness :
  (0 < 3)%nat /\ (0 < 600000)%N /\
  download_fetch coarse_clock 0 = download_same_tick /\
  (forall i, i <> 0%nat -> timed_download (download_fetch coarse_clock i)) /\
  download (runSpeedTest coarse_clock) = PInf.
Proof.
  assert (Hothers : forall i, i <> 0%nat ->
            timed_download (download_fetch coarse_clock i)).
  { intros [|i] Hi; [congruence|]. unfold timed_download; simpl.
    unfold Qlt; simpl; lia. }
  split; [lia|]. split; [reflexivity|]. split; [reflexivity|].
  split; [exact Hothers|].
  destruct (download_within_one_reading coarse_clock 0 1000 600000
              ltac:(lia) eq_refl eq_refl Hothers) as (_ & _ & H & _).
  exact H.
Defined.

(** *** The random payload *)

Lemma chunk_sizes_spec fuel : forall i len,
  (0 <= i)%Z -> (len - i <= Z.of_nat fuel * MAX_CRYPTO_CHUNK)%Z ->
  fold_right Z.add 0%Z (chunk_sizes fuel i len) = Z.max 0 (len - i) /\
  Forall (fun c => (0 < c <= MAX_CRYPTO_CHUNK)%Z) (chunk_sizes fuel i len) /\
  chunk_sizes (S fuel) i len = chunk_sizes fuel i len.
Proof.
  unfold MAX_CRYPTO_CHUNK.
  induction fuel as [|k IH]; intros i len Hi Hlen.
  - cbn [chunk_sizes]. assert (E : (i <? len)%Z = false) by (apply Z.ltb_ge; lia).
    rewrite E. cbn [fold_right]. split; [lia|]. split; [constructor | reflexivity].
  - change (chunk_sizes (S (S k)) i len)
      with (if (i <? len)%Z
            then Z.min MAX_CRYPTO_CHUNK (len - i)
                   :: chunk_sizes (S k) (i + MAX_CRYPTO_CHUNK) len
            else []).
    change (chunk_sizes (S k) i len)
      with (if (i <? len)%Z
            then Z.min MAX_CRYPTO_CHUNK (len - i)
                   :: chunk_sizes k (i + MAX_CRYPTO_CHUNK) len
            else []).
    unfold MAX_CRYPTO_CHUNK.
    destruct (i <? len)%Z eqn:E.
    + apply Z.ltb_lt in E.
      destruct (IH (i + 65536)%Z len) as (Hsum & Hall & Hstop); [lia | lia |].
      cbn [fold_right]. rewrite Hsum, Hstop.
      split; [lia|]. split; [|reflexivity].
      constructor; [lia | exact Hall].
    + apply Z.ltb_ge in E. cbn [fold_right].
      split; [lia|]. split; [constructor | reflexivity].
Qed.

(** X19.  The loop that fills the payload covers a buffer of any length
    exactly, from its start, with chunks that each respect the limit of one
    call of the random generator, and then stops; for the 1 MiB payload these
    are 16 chunks of 65536 bytes. *)
Theorem payload_filled_in_chunks (len : Z) (fuel : nat)
    (Hlen : (0 <= len)%Z)
    (Hfuel : (len <= Z.of_nat fuel * MAX_CRYPTO_CHUNK)%Z) :
  fold_right Z.add 0%Z (chunk_sizes fuel 0 len) = len /\
  Forall (fun c => (0 < c <= MAX_CRYPTO_CHUNK)%Z) (chunk_sizes fuel 0 len) /\
  chunk_sizes (S fuel) 0 len = chunk_sizes fuel 0 len /\
  chunk_sizes 16 0 uploadSize = repeat MAX_CRYPTO_CHUNK 16.
Proof.
  destruct (chunk_sizes_spec fuel 0 len) as (Hsum & Hall & Hstop); [lia | lia |].
  split; [rewrite Hsum; lia|]. split; [exact Hall|]. split; [exact Hstop | reflexivity].
Qed.

Lemma payload_filled_in_chunks_witness :
  (0 <= 100000)%Z /\ (100000 <= Z.of_nat 2 * MAX_CRYPTO_CHUNK)%Z /\
  chunk_sizes 2 0 100000 = [65536; 34464]%Z /\
  fold_right Z.add 0%Z (chunk_sizes 2 0 100000) = 100000%Z.
Proof.
  assert (H1 : (0 <= 100000)%Z) by lia.
  assert (H2 : (100000 <= Z.of_nat 2 * MAX_CRYPTO_CHUNK)%Z)
    by (vm_compute; discriminate).
  split; [exact H1|]. split; [exact H2|]. split; [reflexivity|].
  destruct (payload_filled_in_chunks 100000 2 H1 H2) as (H & _). exact H.
Defined.

End ProbeFacts.

(* ===================================================================== *)
(** ** The guard of performTest and the render it was built by *)
(* ===================================================================== *)

Module ClosureFacts.

Import GeminiService App Display Scenarios Closures AppFacts SchedulerFacts.

(** Built by a render that holds the flag and the history of the state,
    [performTest] is the function of [App]. *)
Lemma performTest_of_current r st :
  seen_isTesting r = isTesting st -> seen_history r = history st ->
  performTest_of r st = App.performTest st.
Proof. unfold performTest_of, App.performTest. intros -> ->. reflexivity. Qed.

(** A closure that saw the flag set returns at once. *)
Lemma performTest_of_guarded r st :
  seen_isTesting r = true -> performTest_of r st = st.
Proof. unfold performTest_of. intros ->. reflexivity. Qed.

(** A closure that saw the flag clear starts a cycle, whatever the flag is
    by now. *)
Lemma performTest_of_stale r st :
  seen_isTesting r = false ->
  running (performTest_of r st) = running st ++ [AwaitingProbe (seen_history r)] /\
  flag_calls (performTest_of r st) = flag_calls st ++ [true] /\
  history (performTest_of r st) = history st.
Proof. unfold performTest_of. intros ->. repeat split. Qed.

Section Scheduler.

Variable JSON_parse : string -> option NetworkInsight.
Variable trim : string -> string.

Local Abbreviation step := (Closures.step JSON_parse trim).
Local Abbreviation run := (Closures.run JSON_parse trim).
Local Abbreviation reachable := (Closures.reachable JSON_parse trim).
Local Abbreviation reachable_in_time := (Closures.reachable_in_time JSON_parse trim).

Lemma reachable_run c events : reachable c -> reachable (run c events).
Proof.
  revert c. induction events as [|e events IH]; intros c H; [exact H|].
  apply IH. apply reachable_step. exact H.
Qed.

(** What holds of the cells while every trigger is seen in time: one cycle
    at most, the calls of the flag setter in pairs, and a waiting cycle that
    holds the history of the state or that of the first render. *)
Definition in_time_invariant (st : State) : Prop :=
  one_cycle st /\ flags_ok st /\ captured_ok st.

Lemma in_time_invariant_App_step st e :
  in_time_invariant st -> in_time_invariant (App.step JSON_parse trim st e).
Proof.
  intros (H1 & H2 & H3). split; [|split].
  - apply one_cycle_step, H1.
  - apply flags_ok_step; assumption.
  - apply captured_ok_step; assumption.
Qed.

Lemma in_time_invariant_performTest_of r st :
  seen_isTesting r = isTesting st -> seen_history r = history st ->
  in_time_invariant st -> in_time_invariant (performTest_of r st).
Proof.
  intros Hf Hh H. rewrite (performTest_of_current r st Hf Hh).
  apply (in_time_invariant_App_step st RunNow), H.
Qed.

Lemma in_time_invariant_step c e :
  seen_in_time c e -> in_time_invariant (cells c) ->
  in_time_invariant (cells (step c e)).
Proof.
  intros Hseen H. destruct e as [| |now|i result now|i response];
    cbn [Closures.step cells].
  - exact H.
  - destruct Hseen as [Hf Hh]. apply in_time_invariant_performTest_of; assumption.
  - destruct Hseen as [Hf Hh]. unfold tick_of.
    destruct (Z.max 0 (seen_nextRun (handlers c) - now) <=? 0)%Z; [|exact H].
    apply in_time_invariant_performTest_of; [exact Hf | exact Hh | exact H].
  - apply (in_time_invariant_App_step (cells c) (ProbeDone i result now)), H.
  - apply (in_time_invariant_App_step (cells c) (InsightsDone i response)), H.
Qed.

Lemma reachable_in_time_invariant c :
  reachable_in_time c -> in_time_invariant (cells c).
Proof.
  induction 1 as [saved now|c e _ IH Hseen].
  - split; [left; split; reflexivity|]. split; [exists 0%nat; reflexivity|].
    intros i captured. cbn [Closures.mount cells App.mount running].
    destruct i as [|i]; [|destruct i; discriminate].
    intros E. injection E as <-. right. reflexivity.
  - apply in_time_invariant_step; assumption.
Qed.

(** X6.  As long as every trigger, manual or from the interval, is handled
    by closures that hold the current flag and history, the in-progress flag
    is raised and lowered in strict alternation: the calls of its setter are
    [true, false] once per completed cycle, followed by one [true] exactly
    when a cycle is running, and the flag is set exactly when one cycle is in
    flight. *)
Theorem flag_alternates_in_time (c : Component) (Hreach : reachable_in_time c) :
  (exists n, flag_calls (cells c) = flag_pattern n (isTesting (cells c))) /\
  (isTesting (cells c) = true <-> length (running (cells c)) = 1%nat) /\
  (isTesting (cells c) = false <-> running (cells c) = []).
Proof.
  destruct (reachable_in_time_invariant c Hreach) as (Hone & Hflags & _).
  split; [exact Hflags|].
  destruct Hone as [[Ht Hr]|[Ht Hr]].
  - split; [split; auto|]. split; [congruence|].
    intros E. rewrite E in Hr. discriminate.
  - split; [|split; auto]. split; [congruence|].
    intros E. rewrite Hr in E. discriminate.
Qed.


End Scheduler.

Lemma timer_started_in_time :
  Closures.reachable_in_time reject_all no_blanks timer_started.
Proof.
  unfold timer_started, run. cbn [fold_left].
  apply in_time_step; [|split; vm_compute; reflexivity].
  apply in_time_step; [|exact I].
  apply in_time_step; [|exact I].
  apply in_time_step; [|exact I].
  apply in_time_step; [|exact I].
  apply in_time_mount.
Qed.

Lemma flag_alternates_in_time_witness :
  Closures.reachable_in_time reject_all no_blanks timer_started /\
  flag_calls (cells timer_started) = flag_pattern 1 true /\
  length (running (cells timer_started)) = 1%nat.
Proof.
  pose proof timer_started_in_time as Hreach.
  split; [exact Hreach|]. split; [vm_compute; reflexivity|].
  destruct (flag_alternates_in_time reject_all no_blanks timer_started Hreach)
    as (_ & Hone & _).
  apply Hone. vm_compute. reflexivity.
Defined.


(** C6 fails on the code.  The guard of [performTest] reads the flag of the
    render that built the closure.  When the interval starts a cycle, the
    flag is set but the button still calls the closure of the previous
    render, which saw it clear: a click before the component renders again
    starts a second cycle.  Two cycles are then in flight, the setter of the
    flag has been called with [true] twice in a row, and both cycles append
    a sample to the history.  Once the component has rendered again the same
    click does nothing. *)
Theorem second_cycle_before_rerender :
  let clicked := Closures.step reject_all no_blanks timer_started Click in
  let rendered := Closures.step reject_all no_blanks timer_started Commit in
  let finished :=
    Closures.run reject_all no_blanks clicked
      [Probe 0 sample 1700000660000; Probe 1 sample 1700000661000] in
  Closures.reachable reject_all no_blanks clicked /\
  (isTesting (cells timer_started) = true /\
   length (running (cells timer_started)) = 1%nat /\
   seen_isTesting (handlers timer_started) = false) /\
  (length (running (cells clicked)) = 2%nat /\
   flag_calls (cells timer_started) = [true; false; true] /\
   flag_calls (cells clicked) = [true; false; true; true]) /\
  (length (history (cells timer_started)) = 1%nat /\
   length (history (cells finished)) = 3%nat) /\
  Closures.step reject_all no_blanks rendered Click = rendered.
Proof.
  intros clicked rendered finished.
  split.
  { unfold clicked. apply reachable_step.
    unfold timer_started. apply reachable_run, reachable_mount. }
  repeat split; vm_compute; reflexivity.
Qed.

End ClosureFacts.
